(** * firefly-ethconnect: FFCAPI front end, legacy key-value iterator and
      event subscriptions

    A shallow embedding of [internal/ffcapiconnector/server.go] and of the two
    legacy files that travel with it (package [kldevents]: the LevelDB
    key-value store; package [events]: the subscription runtime), followed by
    the properties established about them.

    Conventions of the embedding:
    - Go's [error] values are the inductive [error]; a [nil] error is [None].
    - A method on a pointer receiver that mutates it is a computation in a
      state monad over the object it mutates.
    - Calls that leave the process (JSON-RPC) or the files embedded here are
      recorded, in program order, in a trace. *)

From Stdlib Require Import ZArith String Ascii List Bool Lia.
From stdpp Require Import base option list strings gmap pretty.
Import ListNotations.

Local Open Scope string_scope.
Local Open Scope list_scope.
Local Open Scope Z_scope.

(** ** Go runtime notions shared by the three packages *)
Module golang.

(** [context.Context] as the code builds it: [context.Background()] and
    [context.WithTimeout(parent, d)], [d] in seconds. The [cancel] function
    that the code defers only releases the timer and is not represented. *)
Inductive context : Type :=
| Background
| WithTimeout (parent : context) (seconds : Z).

(** The time left before the earliest deadline on the way to the root. *)
Fixpoint deadline (ctx : context) : option Z :=
  match ctx with
  | Background => None
  | WithTimeout parent d =>
      match deadline parent with
      | None => Some d
      | Some d' => Some (Z.min d d')
      end
  end.

(** Message identifiers of [internal/errors] used by the embedded code. *)
Inductive ErrorCode : Type :=
| FFCBadVersion
| FFCUnsupportedVersion
| FFCMissingRequestID
| FFCUnsupportedRequestType
| EventStreamsSubscribeNoEvent
| EventStreamsNoID
| EventStreamsSubscribeBadBlock
| RPCCallReturnedError.

(** An [error] is either produced outside the embedded code (its text is all
    that is known of it) or built by [errors.Errorf(code, args...)]. *)
Inductive error : Type :=
| ExtError (msg : string)
| Errorf (code : ErrorCode) (args : list errArg)
with errArg : Type :=
| AString (s : string)
| AError (e : error).

(** The message templates of [internal/errors] are not part of the embedded
    files: [ErrorText] stands for [fmt.Sprintf] applied to the template of a
    code and the rendered arguments. *)
Class ErrorText := errorText : ErrorCode -> list string -> string.

(** [err.Error()] *)
Fixpoint Error `{ErrorText} (e : error) : string :=
  match e with
  | ExtError msg => msg
  | Errorf code args =>
      errorText code
        (map (fun a => match a with AString s => s | AError e' => Error e' end) args)
  end.

(** logrus levels used by the embedded code, and a logged line: the format
    string with its arguments, kept unrendered. *)
Inductive Level : Type := TraceLevel | DebugLevel | InfoLevel | ErrorLevel.

Record logLine (A : Type) : Type := Logf {
  lvl : Level;
  format : string;
  args : list A
}.
Arguments Logf {A} lvl format args.
Arguments lvl {A} _.
Arguments format {A} _.
Arguments args {A} _.

(** A Go call either returns or panics (here: a nil pointer dereference). *)
Inductive outcome (A : Type) : Type :=
| Returns (a : A)
| Panics.
Arguments Returns {A} a.
Arguments Panics {A}.

(** [strings.Contains(s, substr)] *)
Fixpoint Contains (s substr : string) : bool :=
  String.prefix substr s ||
  match s with
  | EmptyString => false
  | String _ s' => Contains s' substr
  end.

(** Decimal digits, for [big.Int.SetString(s, 10)]. *)
Definition digitValue (c : ascii) : option Z :=
  let n := Z.of_nat (nat_of_ascii c) in
  if (48 <=? n) && (n <=? 57) then Some (n - 48) else None.

Fixpoint scanDigits (s : string) (acc : Z) : option Z :=
  match s with
  | EmptyString => Some acc
  | String c s' =>
      match digitValue c with
      | Some d => scanDigits s' (10 * acc + d)
      | None => None
      end
  end.

(** [new(big.Int).SetString(s, 10)]: an optional sign, then one or more
    decimal digits, and nothing else; [None] is [ok == false]. *)
Definition SetString10 (s : string) : option Z :=
  match s with
  | EmptyString => None
  | String "+" EmptyString => None
  | String "-" EmptyString => None
  | String "+" rest => scanDigits rest 0
  | String "-" rest => Z.opp <$> scanDigits rest 0
  | _ => scanDigits s 0
  end.

End golang.

(** ** Package kldevents: the LevelDB key-value store iterator *)
Module kldevents.

Definition bytes := list Byte.byte.

(** [type kvIterator interface] *)
Class kvIterator (I : Type) : Type := {
  Key : I -> string;
  Value : I -> bytes;
  Next : I -> bool * I;
  Release : I -> I
}.

(** The part of goleveldb's [iterator.Iterator] that the wrapper can reach. *)
Class Iterator (I : Type) : Type := {
  iKey : I -> bytes;
  iValue : I -> bytes;
  iNext : I -> bool * I;
  iRelease : I -> I
}.

(** [type levelDBKeyIterator struct { i iterator.Iterator }] *)
Record levelDBKeyIterator (I : Type) : Type := mkLevelDBKeyIterator { i : I }.
Arguments mkLevelDBKeyIterator {I} i.
Arguments i {I} _.

(** The four methods of [*levelDBKeyIterator]. [Release] calls [k.i.Next()]
    and drops the boolean it returns. *)
#[export] Instance levelDBKeyIterator_kvIterator {I} `{Iterator I} :
  kvIterator (levelDBKeyIterator I) := {
  Key k := string_of_list_byte (iKey (i k));
  Value k := iValue (i k);
  Next k := let '(more, i') := iNext (i k) in (more, mkLevelDBKeyIterator i');
  Release k := let '(_, i') := iNext (i k) in mkLevelDBKeyIterator i'
}.

(** A goleveldb iterator over a snapshot: the sorted pairs, the position
    ([-1] before the first pair, [length pairs] past the last one), and
    whether it has been released. *)
Record dbIter : Type := mkDbIter {
  pairs : list (bytes * bytes);
  pos : Z;
  released : bool
}.

Definition dbIter_current (it : dbIter) : option (bytes * bytes) :=
  if released it then None
  else if pos it <? 0 then None
  else pairs it !! Z.to_nat (pos it).

Definition dbIter_Next (it : dbIter) : bool * dbIter :=
  if released it then (false, it)
  else
    let len := Z.of_nat (length (pairs it)) in
    let pos' := Z.min (pos it + 1) len in
    (pos' <? len, mkDbIter (pairs it) pos' false).

Definition dbIter_Release (it : dbIter) : dbIter :=
  mkDbIter (pairs it) (pos it) true.

#[export] Instance dbIter_Iterator : Iterator dbIter := {
  iKey it := from_option fst [] (dbIter_current it);
  iValue it := from_option snd [] (dbIter_current it);
  iNext := dbIter_Next;
  iRelease := dbIter_Release
}.

(** [func (k *levelDBKeyValueStore) NewIterator() kvIterator], over the
    pairs the database holds. *)
Definition NewIterator (db : list (bytes * bytes)) : levelDBKeyIterator dbIter :=
  mkLevelDBKeyIterator (mkDbIter db (-1) false).

(** The loop [for it.Next() { ... it.Key() ... it.Value() ... }] of a caller
    that collects what it reads, cut off after [fuel] turns; the iterator is
    returned as the loop leaves it. *)
Fixpoint drain {I} `{kvIterator I} (fuel : nat) (it : I) : list (string * bytes) * I :=
  match fuel with
  | O => ([], it)
  | S fuel' =>
      let '(more, it') := Next it in
      if more then
        let '(rest, it'') := drain fuel' it' in
        ((Key it', Value it') :: rest, it'')
      else ([], it')
  end.

(** A pair as a caller reads it off the iterator. *)
Definition asRead (p : bytes * bytes) : string * bytes :=
  (string_of_list_byte p.1, p.2).

(** goleveldb keeps the pairs in the bytewise order of their keys, one pair
    per key. [dbPut], [dbGet] and [dbDelete] stand for the [Put], [Get] and
    [Delete] of [leveldb.DB] on the pairs held; what they do on a closed database or on
    an I/O error is left out. *)
Fixpoint bytesCompare (a b : bytes) : comparison :=
  match a, b with
  | [], [] => Eq
  | [], _ :: _ => Lt
  | _ :: _, [] => Gt
  | x :: a', y :: b' =>
      match N.compare (Byte.to_N x) (Byte.to_N y) with
      | Eq => bytesCompare a' b'
      | c => c
      end
  end.

Fixpoint dbPut (key val : bytes) (pairs : list (bytes * bytes)) : list (bytes * bytes) :=
  match pairs with
  | [] => [(key, val)]
  | (k, v) :: rest =>
      match bytesCompare key k with
      | Lt => (key, val) :: (k, v) :: rest
      | Eq => (key, val) :: rest
      | Gt => (k, v) :: dbPut key val rest
      end
  end.

Fixpoint dbGet (key : bytes) (pairs : list (bytes * bytes)) : option bytes :=
  match pairs with
  | [] => None
  | (k, v) :: rest =>
      match bytesCompare key k with
      | Eq => Some v
      | _ => dbGet key rest
      end
  end.

Fixpoint dbDelete (key : bytes) (pairs : list (bytes * bytes)) : list (bytes * bytes) :=
  match pairs with
  | [] => []
  | (k, v) :: rest =>
      match bytesCompare key k with
      | Eq => dbDelete key rest
      | _ => (k, v) :: dbDelete key rest
      end
  end.

(** [type levelDBKeyValueStore struct { db *leveldb.DB }] and its [Put],
    [Get] and [Delete]: the key goes in as [[]byte(key)], the options are
    [nil]. A key that is not there is goleveldb's [ErrNotFound]. *)
Record levelDBKeyValueStore : Type := mkLevelDBKeyValueStore {
  db : list (bytes * bytes)
}.

Definition Put (key : string) (val : bytes) (k : levelDBKeyValueStore)
  : option golang.error * levelDBKeyValueStore :=
  (None, mkLevelDBKeyValueStore (dbPut (list_byte_of_string key) val (db k))).

Definition Get (key : string) (k : levelDBKeyValueStore) : golang.error + bytes :=
  match dbGet (list_byte_of_string key) (db k) with
  | Some v => inr v
  | None => inl (golang.ExtError "leveldb: not found")
  end.

Definition Delete (key : string) (k : levelDBKeyValueStore)
  : option golang.error * levelDBKeyValueStore :=
  (None, mkLevelDBKeyValueStore (dbDelete (list_byte_of_string key) (db k))).

(** Three pairs under the keys "a", "b" and "c". *)
Definition samplePairs : list (bytes * bytes) :=
  [([Byte.x61], [Byte.x01]); ([Byte.x62], [Byte.x02]); ([Byte.x63], [Byte.x03])].

End kldevents.

(** ** Package ffcapiconnector: the FFCAPI request front end *)
Module ffcapiconnector.
Import golang.

(** [var supportedAPIVersions = "1.0.x"] *)
Definition supportedAPIVersions : string := "1.0.x".

(** github.com/Masterminds/semver, as far as the server uses it.
    [NewConstraint] and [NewVersion] return a pointer and an error. *)
Class Semver : Type := {
  SemVersion : Type;
  Constraints : Type;
  NewVersion : string -> error + SemVersion;
  NewConstraint : string -> error + Constraints;
  Check : Constraints -> SemVersion -> bool
}.

(** [ffcapi.Header]: [RequestID] is a [*fftypes.UUID], [nil] being [None]. *)
Record Header : Type := mkHeader {
  RequestID : option string;
  Version : string;
  RequestType : string
}.

(** [ffcapi.ErrorReason]: the two reasons the server tells apart, and the
    rest. *)
Inductive ErrorReason : Type :=
| ErrorReasonInvalidInputs
| ErrorReasonNotFound
| ErrorReasonOther (text : string).

(** What [ServeFFCAPI] marshals: the handler's result, or
    [&ffcapi.ErrorResponse{Error, Reason}]. *)
Inductive resBody (R : Type) : Type :=
| HandlerResult (res : R)
| ErrorResponse (Error : string) (Reason : ErrorReason).
Arguments HandlerResult {R} res.
Arguments ErrorResponse {R} Error Reason.

(** What reaches the [http.ResponseWriter]: the headers in the order they
    are set, the status and the body. *)
Record response : Type := mkResponse {
  headers : list (string * string);
  status : Z;
  body : string
}.

Inductive logArg : Type :=
| LString (s : string)
| LReason (r : ErrorReason)
| LError (e : option error).

(** The request type constants of [ffcapi] that [NewFFCServer] registers. *)
Class RequestTypes : Type := {
  RequestTypeCreateBlockListener : string;
  RequestTypeExecQuery : string;
  RequestTypeGetBlockInfoByHash : string;
  RequestTypeGetBlockInfoByNumber : string;
  RequestTypeGetGasPrice : string;
  RequestTypeGetNewBlockHashes : string;
  RequestTypeGetNextNonce : string;
  RequestTypeGetReceipt : string;
  RequestTypePrepareTransaction : string;
  RequestTypeSendTransaction : string
}.

Section Server.

(** [E] is everything a handler can reach (the RPC client behind the server
    among it), [R] what a handler returns as [res]. *)
Context {E R : Type} `{Semver} `{ErrorText} `{RequestTypes}.

(** [type ffcHandler func(ctx, payload) (res interface{}, reason, err)] *)
Definition ffcHandler : Type :=
  context -> string -> E -> (R * ErrorReason * option error) * E.

(** [type ffcServer struct]: [versionCheck] is a pointer, [nil] when the
    constraint did not parse. The [rpc] client is part of [E]; the
    [gasEstimationFactor] is read by handlers only. *)
Record ffcServer : Type := mkFfcServer {
  versionCheck : option Constraints;
  handlerMap : gmap string ffcHandler
}.

(** The handler methods of [*ffcServer], defined in other files. *)
Record ffcMethods : Type := mkFfcMethods {
  createBlockListener : ffcHandler;
  execQuery : ffcHandler;
  getBlockInfoByHash : ffcHandler;
  getBlockInfoByNumber : ffcHandler;
  getGasPrice : ffcHandler;
  getNewBlockHashes : ffcHandler;
  getNextNonce : ffcHandler;
  getReceipt : ffcHandler;
  prepareTransaction : ffcHandler;
  sendTransaction : ffcHandler
}.

(** [func NewFFCServer(rpc, conf) FFCServer]; the error of
    [semver.NewConstraint] is dropped. *)
Definition NewFFCServer (s : ffcMethods) : ffcServer :=
  let handlerMap : gmap string ffcHandler :=
    <[RequestTypeSendTransaction := sendTransaction s]>
    (<[RequestTypePrepareTransaction := prepareTransaction s]>
    (<[RequestTypeGetReceipt := getReceipt s]>
    (<[RequestTypeGetNextNonce := getNextNonce s]>
    (<[RequestTypeGetNewBlockHashes := getNewBlockHashes s]>
    (<[RequestTypeGetGasPrice := getGasPrice s]>
    (<[RequestTypeGetBlockInfoByNumber := getBlockInfoByNumber s]>
    (<[RequestTypeGetBlockInfoByHash := getBlockInfoByHash s]>
    (<[RequestTypeExecQuery := execQuery s]>
    (<[RequestTypeCreateBlockListener := createBlockListener s]> ∅))))))))) in
  let versionCheck :=
    match NewConstraint supportedAPIVersions with
    | inr c => Some c
    | inl _ => None
    end in
  mkFfcServer versionCheck handlerMap.

(** [func (s *ffcServer) mapReasonStatus(reason) int] *)
Definition mapReasonStatus (reason : ErrorReason) : Z :=
  match reason with
  | ErrorReasonNotFound => 404
  | ErrorReasonInvalidInputs => 400
  | _ => 500
  end.

(** [func (s *ffcServer) validateHeader(header) (ffcHandler, error)];
    [inl err] is [(nil, err)] and [inr handler] is [(handler, nil)]. *)
Definition validateHeader (s : ffcServer) (header : Header)
  : outcome (error + ffcHandler) :=
  match NewVersion (Version header) with
  | inl err =>
      Returns (inl (Errorf FFCBadVersion [AString (Version header); AError err]))
  | inr v =>
      match versionCheck s with
      | None => Panics
      | Some c =>
          if negb (Check c v) then
            Returns (inl (Errorf FFCUnsupportedVersion [AString (Version header)]))
          else
            match RequestID header with
            | None => Returns (inl (Errorf FFCMissingRequestID []))
            | Some _ =>
                match handlerMap s !! RequestType header with
                | None =>
                    Returns (inl (Errorf FFCUnsupportedRequestType
                                    [AString (RequestType header)]))
                | Some handler => Returns (inr handler)
                end
            end
      end
  end.

(** What [ServeFFCAPI] acts on: the handlers' world and the log. *)
Record world : Type := mkWorld {
  engine : E;
  log : list (logLine logArg)
}.

Definition logf (l : Level) (fmt : string) (a : list logArg) (w : world) : world :=
  mkWorld (engine w) (log w ++ [Logf l fmt a]).

(** [encoding/json]: [Unmarshal] into a zero [ffcapi.RequestBase] (its error
    is dropped, so what it leaves in the header is all that counts) and
    [Marshal] of the response body (error dropped as well). *)
Class Json : Type := {
  UnmarshalRequestBase : string -> Header;
  Marshal : option (resBody R) -> string
}.
Context `{Json}.

(** [func (s *ffcServer) ServeFFCAPI(ctx, payload, w)] *)
Definition ServeFFCAPI (s : ffcServer) (ctx : context) (payload : string)
    (w : world) : outcome (response * world) :=
  let resBase := UnmarshalRequestBase payload in
  let status := 200 in
  let reason := ErrorReasonInvalidInputs in
  match validateHeader s resBase with
  | Panics => Panics
  | Returns v =>
      let '(resBody, reason, err, w) :=
        match v with
        | inr handler =>
            let w := logf TraceLevel "--> %s %s"
                       [LString (RequestType resBase); LString payload] w in
            let '(res, reason, err, e) := handler ctx payload (engine w) in
            let w := mkWorld e (log w) in
            let w := logf TraceLevel "<-- %s %s %v"
                       [LString (RequestType resBase); LReason reason; LError err] w in
            (Some (HandlerResult res), reason, err, w)
        | inl err => (None, reason, Some err, w)
        end in
      let '(resBody, status, w) :=
        match err with
        | Some err =>
            let w := logf ErrorLevel "Request failed: %s" [LError (Some err)] w in
            (Some (ErrorResponse (Error err) reason), mapReasonStatus reason, w)
        | None => (resBody, status, w)
        end in
      let resBytes := Marshal resBody in
      Returns
        (mkResponse
           [("Content-Type", "application/json");
            ("Content-Length", pretty (Z.of_nat (String.length resBytes)))]
           status resBytes, w)
  end.

End Server.

Arguments ffcHandler : clear implicits.
Arguments ffcServer E R {_}.
Arguments ffcMethods : clear implicits.
Arguments world : clear implicits.

(** *** Plain instances of the collaborators

    Versions are [major.minor.patch] and a constraint is [major.minor.x]. *)
Fixpoint splitOn (sep : ascii) (s : string) : list string :=
  match s with
  | EmptyString => [EmptyString]
  | String c s' =>
      if Ascii.eqb c sep then EmptyString :: splitOn sep s'
      else
        match splitOn sep s' with
        | [] => [String c EmptyString]
        | w :: ws => String c w :: ws
        end
  end.

Definition plainSemver : Semver := {|
  SemVersion := Z * Z * Z;
  Constraints := Z * Z;
  NewVersion := fun s =>
    match SetString10 <$> splitOn "." s with
    | [Some a; Some b; Some c] => inr (a, b, c)
    | _ => inl (ExtError "Invalid Semantic Version")
    end;
  NewConstraint := fun s =>
    match splitOn "." s with
    | [a; b; "x"] =>
        match SetString10 a, SetString10 b with
        | Some a, Some b => inr (a, b)
        | _, _ => inl (ExtError "improper constraint")
        end
    | _ => inl (ExtError "improper constraint")
    end;
  Check := fun c v => (v.1.1 =? c.1) && (v.1.2 =? c.2)
|}.

Definition plainRequestTypes : RequestTypes := {|
  RequestTypeCreateBlockListener := "create_block_listener";
  RequestTypeExecQuery := "exec_query";
  RequestTypeGetBlockInfoByHash := "get_block_info_by_hash";
  RequestTypeGetBlockInfoByNumber := "get_block_info_by_number";
  RequestTypeGetGasPrice := "get_gas_price";
  RequestTypeGetNewBlockHashes := "get_new_block_hashes";
  RequestTypeGetNextNonce := "get_next_nonce";
  RequestTypeGetReceipt := "get_receipt";
  RequestTypePrepareTransaction := "prepare_transaction";
  RequestTypeSendTransaction := "send_transaction"
|}.

Definition plainErrorText : ErrorText :=
  fun code a => String.concat ": " a.

(** A payload is [version|id|type], an empty id being no id. *)
Definition plainJson : @Json string := {|
  UnmarshalRequestBase := fun payload =>
    match splitOn "|" payload with
    | [v; id; t] => mkHeader (if String.eqb id "" then None else Some id) v t
    | _ => mkHeader None "" ""
    end;
  Marshal := fun b =>
    match b with
    | None => "null"
    | Some (HandlerResult res) => res
    | Some (ErrorResponse e _) => e
    end
|}.

(** Handlers that count how often any of them ran. *)
Definition countingHandler (name : string) : ffcHandler nat string :=
  fun _ _ n => ((name, ErrorReasonOther "", None), S n).

Definition countingMethods : ffcMethods nat string :=
  mkFfcMethods
    (countingHandler "createBlockListener") (countingHandler "execQuery")
    (countingHandler "getBlockInfoByHash") (countingHandler "getBlockInfoByNumber")
    (countingHandler "getGasPrice") (countingHandler "getNewBlockHashes")
    (countingHandler "getNextNonce") (countingHandler "getReceipt")
    (countingHandler "prepareTransaction") (countingHandler "sendTransaction").

(** The same, but for the receipt handler, which fails with reason
    "not found". *)
Definition failingMethods : ffcMethods nat string :=
  mkFfcMethods
    (countingHandler "createBlockListener") (countingHandler "execQuery")
    (countingHandler "getBlockInfoByHash") (countingHandler "getBlockInfoByNumber")
    (countingHandler "getGasPrice") (countingHandler "getNewBlockHashes")
    (countingHandler "getNextNonce")
    (fun _ _ n => (("", ErrorReasonNotFound, Some (ExtError "receipt not available")), S n))
    (countingHandler "prepareTransaction") (countingHandler "sendTransaction").

End ffcapiconnector.

(** ** Package events: the subscription runtime *)
Module events.
Import golang.

(** [ethbinding.Address] and [ethbinding.Hash] are byte arrays. *)
Definition Address : Type := list Byte.byte.
Definition Hash : Type := list Byte.byte.

(** [abi.Event], as far as the subscription reads it. *)
Record ABIEvent : Type := mkABIEvent {
  eventName : string;
  eventID : Hash
}.

(** [type persistedFilter struct] *)
Record persistedFilter : Type := mkPersistedFilter {
  Addresses : list Address;
  Topics : list (list Hash)
}.

(** [type ethFilter struct]: the embedded [persistedFilter], [FromBlock]
    (an [ethbinding.HexBigInt], a big integer) and [ToBlock]. *)
Record ethFilter : Type := mkEthFilter {
  f_persistedFilter : persistedFilter;
  f_FromBlock : Z;
  f_ToBlock : string
}.

(** [type logEntry struct] is declared beside the log processor: the block
    number and the timestamp are the fields read or written here, [Data]
    stands for the rest of the entry. *)
Record logEntry : Type := mkLogEntry {
  BlockNumber : Z;
  Timestamp : Z;
  Data : string
}.

(** [ethbinding.Header], as far as it is read. *)
Record blockHeader : Type := mkBlockHeader { Time : Z }.

(** *** The timestamp cache: github.com/hashicorp/golang-lru

    The eviction list holds the entries, most recently used first; a key
    occurs at most once. *)
Record lruCache : Type := mkLruCache {
  size : nat;
  evictList : list (string * Z)
}.

Fixpoint lookupEntry (key : string) (l : list (string * Z)) : option Z :=
  match l with
  | [] => None
  | (k, v) :: l' => if String.eqb k key then Some v else lookupEntry key l'
  end.

Fixpoint removeEntry (key : string) (l : list (string * Z)) : list (string * Z) :=
  match l with
  | [] => []
  | (k, v) :: l' =>
      if String.eqb k key then removeEntry key l' else (k, v) :: removeEntry key l'
  end.

(** [func (c *Cache) Get(key) (value, ok)]: a hit moves the entry to the
    front. *)
Definition lruGet (key : string) (c : lruCache) : option Z * lruCache :=
  match lookupEntry key (evictList c) with
  | Some v => (Some v, mkLruCache (size c) ((key, v) :: removeEntry key (evictList c)))
  | None => (None, c)
  end.

(** [func (c *Cache) Add(key, value)]: an existing entry is updated and
    moved to the front; a new one is pushed to the front and the oldest is
    removed when the list outgrows [size]. *)
Definition lruAdd (key : string) (value : Z) (c : lruCache) : lruCache :=
  match lookupEntry key (evictList c) with
  | Some _ => mkLruCache (size c) ((key, value) :: removeEntry key (evictList c))
  | None =>
      let l := (key, value) :: evictList c in
      mkLruCache (size c) (if (size c <? length l)%nat then removelast l else l)
  end.

(** [type eventStream struct], as far as the subscription reaches into it:
    [spec.Timestamps] and [blockTimestampCache]. *)
Record StreamInfo : Type := mkStreamInfo { Timestamps : bool }.

Record eventStream : Type := mkEventStream {
  spec : StreamInfo;
  blockTimestampCache : lruCache
}.

(** Modelled from the spec: [type logProcessor struct] and its
    [newLogProcessor], [initBlockHWM] and [getBlockHWM] are declared in
    another file of the package. The log processor owns the block
    high-water-mark ([blockHWM_], a big integer); [initBlockHWM] seeds it
    and [getBlockHWM] reads it. The stream is a pointer that the
    subscriptions of one stream share; the properties below follow one
    subscription, so it is held by value. *)
Record logProcessor : Type := mkLogProcessor {
  subID : string;
  event : option ABIEvent;
  stream : eventStream;
  blockHWM_ : Z
}.

Definition newLogProcessor (subID : string) (event : option ABIEvent)
    (stream : eventStream) : logProcessor :=
  mkLogProcessor subID event stream 0.

Definition initBlockHWM (intVal : Z) (lp : logProcessor) : logProcessor :=
  mkLogProcessor (subID lp) (event lp) (stream lp) intVal.

Definition getBlockHWM (lp : logProcessor) : Z := blockHWM_ lp.

Definition set_blockTimestampCache (c : lruCache) (lp : logProcessor) : logProcessor :=
  mkLogProcessor (subID lp) (event lp)
    (mkEventStream (spec (stream lp)) c) (blockHWM_ lp).

(** Modelled from the spec: the constant [FromBlockLatest] is declared in
    another file of the package; the starting-block directive is a decimal
    block number or the sentinel "latest". *)
Definition FromBlockLatest : string := "latest".

(** Positional parameters of a JSON-RPC call, and the type of the value a
    call decodes its result into. *)
Inductive rpcArg : Type :=
| ArgFilter (f : ethFilter)
| ArgHexBigInt (n : Z)
| ArgString (s : string)
| ArgBool (b : bool).

Inductive resultKind : Type := KHexBigInt | KHeader | KLogs | KBool.

Definition resultTy (k : resultKind) : Type :=
  match k with
  | KHexBigInt => Z
  | KHeader => blockHeader
  | KLogs => list logEntry
  | KBool => bool
  end.

(** [eth.RPCClient]: [CallContext(ctx, &result, method, args...)] against a
    node in state [N]. On an error the result variable keeps its value. *)
Class RPCClient (N : Type) : Type :=
  CallContext : forall k : resultKind,
    context -> string -> list rpcArg -> N -> (error + resultTy k) * N.

Inductive logArg : Type :=
| LString (s : string)
| LInt (n : Z)
| LBool (b : bool)
| LError (e : option error)
| LHash (h : Hash)
| LFilter (f : persistedFilter).

(** What a subscription does that can be seen from outside it: JSON-RPC
    calls, log lines, and log entries handed to the log processor (with the
    error the log processor returned). *)
Inductive event_ : Type :=
| EvRPC (ctx : context) (method : string) (args : list rpcArg)
| EvLog (l : logLine logArg)
| EvProcessLogEntry (subInfo : string) (entry : logEntry) (idx : Z)
    (err : option error).

(** The functions of [ethbind.API] and of [ethbinding] values that the
    subscription calls. [ABIElementMarshalingToABIEvent] and
    [ABIEventSignature] take and return pointers. *)
Class EthBinding : Type := {
  ABIElementMarshaling : Type;
  ABIElementMarshalingToABIEvent : option ABIElementMarshaling -> error + option ABIEvent;
  ABIEventSignature : option ABIEvent -> string;
  AddressString : Address -> string;
  HexBigIntString : Z -> string
}.

(** [func (lp *logProcessor) processLogEntry(subInfo, entry, idx) error] is
    defined beside the log processor: what it returns and what it does to
    the log processor (and the stream behind it) is left open. *)
Class LogProcessing : Type :=
  processLogEntry : string -> logEntry -> Z -> logProcessor -> option error * logProcessor.

(** *** Reading a trace *)

(** The JSON-RPC calls of a trace, in order. *)
Definition rpcCalls (t : list event_) : list (context * string * list rpcArg) :=
  flat_map (fun e => match e with EvRPC c m a => [(c, m, a)] | _ => [] end) t.

(** How many calls of a trace are to [method]. *)
Definition callsTo (method : string) (t : list event_) : nat :=
  length (List.filter (fun c => String.eqb c.1.2 method) (rpcCalls t)).

(** The part of a trace that tells how a batch went: the entries handed to
    the log processor and the lines logged for those it failed on. *)
Definition isProcessing (e : event_) : bool :=
  match e with
  | EvProcessLogEntry _ _ _ _ => true
  | EvLog l => String.eqb (format l) "Failed to process event: %s"
  | EvRPC _ _ _ => false
  end.

Definition processing (t : list event_) : list event_ :=
  List.filter isProcessing t.

(** What one step of a batch may add to the trace besides the delivery:
    block header calls and lines that are not about processing. *)
Definition quiet (delta : list event_) : Prop :=
  Forall (λ c, c.1.2 = "eth_getBlockByNumber") (rpcCalls delta).

(** A context whose deadline is at most 30 seconds away. *)
Definition within30 (c : context) : Prop :=
  ∃ d, deadline c = Some d ∧ d ≤ 30.

(** A block header look-up as [getEventTimestamp] makes it from the loop of
    [processNewEvents]: under a deadline of its own, 30 seconds from
    [context.Background()]. *)
Definition isHeaderLookup (c : context * string * list rpcArg) : Prop :=
  c.1.1 = WithTimeout Background 30 ∧ c.1.2 = "eth_getBlockByNumber" ∧
  ∃ blockNumber, c.2 = [ArgString blockNumber; ArgBool false].

(** An entry without its timestamp, the one field enrichment writes. *)
Definition asReceived (l : logEntry) : Z * string := (BlockNumber l, Data l).

(** What the trace shows of one delivered entry: the hand-over to the log
    processor and, when that returned an error, the line logged for it. *)
Definition deliveryEvents (subInfo : string) (idx : Z) (d : logEntry * option error)
  : list event_ :=
  EvProcessLogEntry subInfo d.1 idx d.2 ::
  match d.2 with
  | Some err => [EvLog (Logf ErrorLevel "Failed to process event: %s" [LError (Some err)])]
  | None => []
  end.

Section Subscription.

Context {N : Type} `{RPCClient N} `{EthBinding} `{ErrorText} `{LogProcessing}.

(** [type SubscriptionInfo struct]; [TimeSorted] is the embedded
    [messages.TimeSorted], [Event] a pointer. *)
Record SubscriptionInfo : Type := mkSubscriptionInfo {
  TimeSorted : string;
  ID : string;
  Path : string;
  Summary : string;
  Name : string;
  Stream : string;
  Filter : persistedFilter;
  Event : option ABIElementMarshaling;
  FromBlock : string
}.

(** [type subscription struct]. [info] and [lp] are pointers to objects no
    other subscription of the model reaches, held here by value; the [rpc]
    client is the [RPCClient] of the context. *)
Record subscription : Type := mkSubscription {
  info : SubscriptionInfo;
  lp : logProcessor;
  logName : string;
  filterID : Z;
  filteredOnce : bool;
  filterStale : bool;
  deleting : bool;
  resetRequested : bool
}.

Definition set_lp (x : logProcessor) (s : subscription) : subscription :=
  mkSubscription (info s) x (logName s) (filterID s) (filteredOnce s)
    (filterStale s) (deleting s) (resetRequested s).
Definition set_filterID (x : Z) (s : subscription) : subscription :=
  mkSubscription (info s) (lp s) (logName s) x (filteredOnce s)
    (filterStale s) (deleting s) (resetRequested s).
Definition set_filteredOnce (x : bool) (s : subscription) : subscription :=
  mkSubscription (info s) (lp s) (logName s) (filterID s) x
    (filterStale s) (deleting s) (resetRequested s).
Definition set_filterStale (x : bool) (s : subscription) : subscription :=
  mkSubscription (info s) (lp s) (logName s) (filterID s) (filteredOnce s)
    x (deleting s) (resetRequested s).
Definition set_deleting (x : bool) (s : subscription) : subscription :=
  mkSubscription (info s) (lp s) (logName s) (filterID s) (filteredOnce s)
    (filterStale s) x (resetRequested s).
Definition set_resetRequested (x : bool) (s : subscription) : subscription :=
  mkSubscription (info s) (lp s) (logName s) (filterID s) (filteredOnce s)
    (filterStale s) (deleting s) x.

(** [type subscriptionManager interface], as far as it is called. *)
Record subscriptionManager : Type := mkSubscriptionManager {
  streamByID : string -> error + eventStream
}.

(** The state a method of [*subscription] runs in: the subscription, the
    node behind the RPC client, and what has been observed so far. *)
Record machine : Type := mkMachine {
  sub : subscription;
  node : N;
  trace : list event_
}.

Definition M (A : Type) : Type := machine -> A * machine.

#[export] Instance M_ret : MRet M := fun A a m => (a, m).
#[export] Instance M_bind : MBind M :=
  fun A B f c m => let '(a, m') := c m in f a m'.

Definition getSub : M subscription := fun m => (sub m, m).

Definition modifySub (f : subscription -> subscription) : M unit :=
  fun m => (tt, mkMachine (f (sub m)) (node m) (trace m)).

Definition emit (e : event_) : M unit :=
  fun m => (tt, mkMachine (sub m) (node m) (trace m ++ [e])).

Definition logf (l : Level) (fmt : string) (a : list logArg) : M unit :=
  emit (EvLog (Logf l fmt a)).

(** [s.rpc.CallContext(ctx, &result, method, args...)] *)
Definition call (k : resultKind) (ctx : context) (method : string)
    (a : list rpcArg) : M (error + resultTy k) :=
  fun m =>
    let '(r, n) := CallContext k ctx method a (node m) in
    (r, mkMachine (sub m) n (trace m ++ [EvRPC ctx method a])).

(** [s.lp.processLogEntry(subInfo, entry, idx)] *)
Definition lp_processLogEntry (subInfo : string) (entry : logEntry) (idx : Z)
  : M (option error) :=
  fun m =>
    let '(r, lp') := processLogEntry subInfo entry idx (lp (sub m)) in
    (r, mkMachine (set_lp lp' (sub m)) (node m)
          (trace m ++ [EvProcessLogEntry subInfo entry idx r])).

(** [s.lp.stream.blockTimestampCache.Get(key)] and [.Add(key, value)] *)
Definition cacheGet (key : string) : M (option Z) :=
  fun m =>
    let '(r, c) := lruGet key (blockTimestampCache (stream (lp (sub m)))) in
    (r, mkMachine (set_lp (set_blockTimestampCache c (lp (sub m))) (sub m))
          (node m) (trace m)).

Definition cacheAdd (key : string) (value : Z) : M unit :=
  modifySub (fun s =>
    set_lp (set_blockTimestampCache
              (lruAdd key value (blockTimestampCache (stream (lp s)))) (lp s)) s).

(** [func newSubscription(sm, rpc, addr, i)], returning a subscription pointer and an error.
    [i] is mutated in place and the subscription keeps the pointer, so the
    subscription's [info] is [i] as the function leaves it; the result is the
    return value, [i] afterwards, and the lines logged. *)
Definition newSubscription (sm : subscriptionManager) (addr : option Address)
    (i : SubscriptionInfo)
  : (error + subscription) * SubscriptionInfo * list (logLine logArg) :=
  match streamByID sm (Stream i) with
  | inl err => (inl err, i, [])
  | inr stream =>
      match ABIElementMarshalingToABIEvent (Event i) with
      | inl err => (inl err, i, [])
      | inr event =>
          let lp := newLogProcessor (ID i) event stream in
          let logName := ID i +:+ ":" +:+ ABIEventSignature event in
          let '(f, addrStr) :=
            match addr with
            | Some a => (mkPersistedFilter [a] (Topics (Filter i)), AddressString a)
            | None => (Filter i, "*")
            end in
          let Summary' := addrStr +:+ ":" +:+ ABIEventSignature event in
          let '(Name', logged) :=
            if String.eqb (Name i) "" then
              (Summary',
               [Logf DebugLevel
                  "No name provided for subscription, using auto-generated summary:%s"
                  [LString Summary']])
            else (Name i, []) in
          let i1 := mkSubscriptionInfo (TimeSorted i) (ID i) (Path i) Summary' Name'
                      (Stream i) f (Event i) (FromBlock i) in
          match event with
          | None => (inl (Errorf EventStreamsSubscribeNoEvent []), i1, logged)
          | Some ev =>
              if String.eqb (eventName ev) "" then
                (inl (Errorf EventStreamsSubscribeNoEvent []), i1, logged)
              else
                let f2 := mkPersistedFilter (Addresses f) [[eventID ev]] in
                let i2 := mkSubscriptionInfo (TimeSorted i) (ID i) (Path i) Summary'
                            Name' (Stream i) f2 (Event i) (FromBlock i) in
                (inr (mkSubscription i2 lp logName 0 false true false false), i2,
                 logged ++
                 [Logf InfoLevel "Created subscription ID:%s name:%s topic:%s"
                    [LString (ID i2); LString (Name i2); LHash (eventID ev)]])
          end
      end
  end.

(** [func (info *SubscriptionInfo) GetID() string] *)
Definition GetID (info : SubscriptionInfo) : string := ID info.

(** [func restoreSubscription(sm, rpc, i)], returning a subscription pointer and an error *)
Definition restoreSubscription (sm : subscriptionManager) (i : SubscriptionInfo)
  : error + subscription :=
  if String.eqb (GetID i) "" then inl (Errorf EventStreamsNoID [])
  else
    match streamByID sm (Stream i) with
    | inl err => inl err
    | inr stream =>
        match ABIElementMarshalingToABIEvent (Event i) with
        | inl err => inl err
        | inr event =>
            inr (mkSubscription i (newLogProcessor (ID i) event stream)
                   (ID i +:+ ":" +:+ ABIEventSignature event)
                   0 false true false false)
        end
    end.

(** [func (s *subscription) blockHWM() big.Int] *)
Definition blockHWM (s : subscription) : Z := getBlockHWM (lp s).

(** [func (s *subscription) markFilterStale(ctx, newFilterStale)] *)
Definition markFilterStale (ctx : context) (newFilterStale : bool) : M unit :=
  s ← getSub;
  logf DebugLevel "%s: Marking filter stale=%t, current sub filter stale=%t"
    [LString (logName s); LBool newFilterStale; LBool (filterStale s)];;
  (if newFilterStale && negb (filterStale s) then
     let ctx := WithTimeout ctx 30 in
     r ← call KBool ctx "eth_uninstallFilter" [ArgHexBigInt (filterID s)];
     let '(retval, err) :=
       match r with
       | inr b => (b, None)
       | inl e => (false, Some e)
       end in
     logf InfoLevel "%s: Uninstalled filter. ok=%t (%s)"
       [LString (logName s); LBool retval; LError err]
   else mret tt);;
  modifySub (set_filterStale newFilterStale).

(** [func (s *subscription) setInitialBlockHeight(ctx)], returning a [*big.Int] and an error *)
Definition setInitialBlockHeight (ctx : context) : M (error + Z) :=
  s ← getSub;
  if negb (String.eqb (FromBlock (info s)) "") &&
     negb (String.eqb (FromBlock (info s)) FromBlockLatest)
  then
    match SetString10 (FromBlock (info s)) with
    | None => mret (inl (Errorf EventStreamsSubscribeBadBlock []))
    | Some i => mret (inr i)
    end
  else
    let ctx := WithTimeout ctx 30 in
    r ← call KHexBigInt ctx "eth_blockNumber" [];
    match r with
    | inl err =>
        mret (inl (Errorf RPCCallReturnedError [AString "eth_blockNumber"; AError err]))
    | inr blockHeight =>
        let i := blockHeight in
        modifySub (fun s => set_lp (initBlockHWM i (lp s)) s);;
        logf InfoLevel
          "%s: initial block height for event stream (latest block): %s"
          [LString (logName s); LInt i];;
        mret (inr i)
    end.

(** [func (s *subscription) setCheckpointBlockHeight(i *big.Int)] *)
Definition setCheckpointBlockHeight (i : Z) : M unit :=
  modifySub (fun s => set_lp (initBlockHWM i (lp s)) s);;
  s ← getSub;
  logf InfoLevel "%s: checkpoint restored block height for event stream: %s"
    [LString (logName s); LInt i].

(** [func (s *subscription) restartFilter(ctx, since *big.Int) error] *)
Definition restartFilter (ctx : context) (since : Z) : M (option error) :=
  s ← getSub;
  let f := mkEthFilter (Filter (info s)) since "latest" in
  let ctx := WithTimeout ctx 30 in
  r ← call KHexBigInt ctx "eth_newFilter" [ArgFilter f];
  match r with
  | inl err =>
      mret (Some (Errorf RPCCallReturnedError [AString "eth_newFilter"; AError err]))
  | inr id =>
      modifySub (set_filterID id);;
      modifySub (set_filteredOnce false);;
      markFilterStale ctx false;;
      s ← getSub;
      logf InfoLevel "%s: created filter from block %s: %s - %+v"
        [LString (logName s); LInt since; LInt (filterID s); LFilter (Filter (info s))];;
      mret None
  end.

(** [func (s *subscription) getEventTimestamp(ctx, l *logEntry)]: the entry
    is returned as the call leaves it. *)
Definition getEventTimestamp (ctx : context) (l : logEntry) : M logEntry :=
  let ctx := WithTimeout ctx 30 in
  let blockNumber := HexBigIntString (BlockNumber l) in
  hit ← cacheGet blockNumber;
  match hit with
  | Some ts => mret (mkLogEntry (BlockNumber l) ts (Data l))
  | None =>
      let rpcMethod := "eth_getBlockByNumber" in
      r ← call KHeader ctx rpcMethod [ArgString blockNumber; ArgBool false];
      match r with
      | inl err =>
          logf ErrorLevel "Unable to retrieve block[%s] timestamp: %s"
            [LString blockNumber; LError (Some err)];;
          mret (mkLogEntry (BlockNumber l) 0 (Data l))
      | inr hdr =>
          let l' := mkLogEntry (BlockNumber l) (Time hdr) (Data l) in
          cacheAdd blockNumber (Timestamp l');;
          mret l'
      end
  end.

(** The body of the loop [for idx, logEntry := range logs] in
    [processNewEvents]. *)
Definition loopBody (idx : Z) (logEntry : logEntry) : M unit :=
  s ← getSub;
  l ← (if Timestamps (spec (stream (lp s)))
       then getEventTimestamp Background logEntry
       else mret logEntry);
  r ← lp_processLogEntry (logName s) l idx;
  match r with
  | Some err => logf ErrorLevel "Failed to process event: %s" [LError (Some err)]
  | None => mret tt
  end.

(** The loop itself, from index [idx] on: it has no [break] and no
    [return]. *)
Fixpoint rangeLogs (idx : Z) (logs : list logEntry) : M unit :=
  match logs with
  | [] => mret tt
  | logEntry :: rest => loopBody idx logEntry;; rangeLogs (idx + 1) rest
  end.

(** [func (s *subscription) processNewEvents(ctx) error] *)
Definition processNewEvents (ctx : context) : M (option error) :=
  let ctx := WithTimeout ctx 30 in
  s ← getSub;
  let rpcMethod :=
    if filteredOnce s then "eth_getFilterChanges" else "eth_getFilterLogs" in
  r ← call KLogs ctx rpcMethod [ArgHexBigInt (filterID s)];
  match r with
  | inl err =>
      (if Contains (Error err) "filter not found"
       then markFilterStale ctx true
       else mret tt);;
      mret (Some err)
  | inr logs =>
      (if (0 <? length logs)%nat then
         logf DebugLevel "%s: received %d events (%s)"
           [LString (logName s); LInt (Z.of_nat (length logs)); LString rpcMethod]
       else mret tt);;
      rangeLogs 0 logs;;
      modifySub (set_filteredOnce true);;
      mret None
  end.

(** [func (s *subscription) unsubscribe(ctx, deleting) (err error)] *)
Definition unsubscribe (ctx : context) (deleting : bool) : M (option error) :=
  s ← getSub;
  logf InfoLevel "%s: Unsubscribing existing filter (deleting=%t)"
    [LString (logName s); LBool deleting];;
  modifySub (set_deleting deleting);;
  modifySub (set_resetRequested false);;
  markFilterStale ctx true;;
  mret None.

(** [func (s *subscription) requestReset()] *)
Definition requestReset : M unit :=
  s ← getSub;
  logf InfoLevel "%s: Requested reset from block '%s'"
    [LString (logName s); LString (FromBlock (info s))];;
  modifySub (set_resetRequested true).

(** *** Reading the machine *)

(** The lines and the call that [markFilterStale] adds to the trace. *)
Definition staleEvents (ctx : context) (newFilterStale : bool) (m : machine)
  : list event_ :=
  EvLog (Logf DebugLevel "%s: Marking filter stale=%t, current sub filter stale=%t"
           [LString (logName (sub m)); LBool newFilterStale;
            LBool (filterStale (sub m))]) ::
  if newFilterStale && negb (filterStale (sub m)) then
    let r := (CallContext KBool (WithTimeout ctx 30) "eth_uninstallFilter"
                [ArgHexBigInt (filterID (sub m))] (node m)).1 in
    [EvRPC (WithTimeout ctx 30) "eth_uninstallFilter" [ArgHexBigInt (filterID (sub m))];
     EvLog (Logf InfoLevel "%s: Uninstalled filter. ok=%t (%s)"
              [LString (logName (sub m));
               LBool (match r with inr b => b | inl _ => false end);
               LError (match r with inr _ => None | inl e => Some e end)])]
  else [].

(** The cache of the stream behind the subscription. *)
Definition cacheOf (m : machine) : lruCache :=
  blockTimestampCache (stream (lp (sub m))).

Definition withCache (c : lruCache) (m : machine) : subscription :=
  set_lp (set_blockTimestampCache c (lp (sub m))) (sub m).

(** Two subscriptions that differ in their log processor at most. *)
Definition sameButLp (s s' : subscription) : Prop := set_lp (lp s) s' = s.

End Subscription.

Arguments SubscriptionInfo {_}.
Arguments subscription {_}.
Arguments subscriptionManager : clear implicits.
Arguments machine N {_}.
Arguments M N {_} A.

(** *** A scripted node and plain instances of the collaborators

    The node answers each call with the next reply of a script, whatever the
    method; a reply of the wrong type, or none, is an error of the client. *)
Inductive reply : Type :=
| ReplyError (msg : string)
| ReplyHexBigInt (n : Z)
| ReplyHeader (h : blockHeader)
| ReplyLogs (l : list logEntry)
| ReplyBool (b : bool).

Definition decodeReply (k : resultKind) (r : reply) : error + resultTy k :=
  match k, r with
  | _, ReplyError msg => inl (ExtError msg)
  | KHexBigInt, ReplyHexBigInt n => inr n
  | KHeader, ReplyHeader h => inr h
  | KLogs, ReplyLogs l => inr l
  | KBool, ReplyBool b => inr b
  | _, _ => inl (ExtError "json: cannot unmarshal")
  end.

Definition scriptedNode : RPCClient (list reply) :=
  fun k _ _ _ n =>
    match n with
    | [] => (inl (ExtError "EOF"), [])
    | r :: n' => (decodeReply k r, n')
    end.

(** An ABI layer in which the marshalled event is its name. *)
Definition plainBinding : EthBinding := {|
  ABIElementMarshaling := string;
  ABIElementMarshalingToABIEvent := fun e =>
    match e with
    | None => inl (ExtError "nil event")
    | Some n => inr (Some (mkABIEvent n []))
    end;
  ABIEventSignature := fun e => from_option eventName "" e;
  AddressString := fun _ => "0x";
  HexBigIntString := fun n => pretty n
|}.

Definition plainErrorText : ErrorText :=
  fun code a => String.concat ": " a.

(** A log processor that rejects the entries whose data is ["bad"] and
    changes nothing. *)
Definition pickyProcessing : LogProcessing :=
  fun _ entry _ lp =>
    (if String.eqb (Data entry) "bad" then Some (ExtError "bad data") else None, lp).

(** A stream with timestamps on and room for two blocks in its cache, a
    subscription on it that starts from block 100, and a machine running
    that subscription against a scripted node. *)
Definition sampleStream : eventStream :=
  mkEventStream (mkStreamInfo true) (mkLruCache 2 []).

Definition sampleManager : subscriptionManager :=
  mkSubscriptionManager (fun id =>
    if String.eqb id "es1" then inr sampleStream
    else inl (ExtError "stream not found")).

Definition sampleInfo : @SubscriptionInfo plainBinding :=
  @mkSubscriptionInfo plainBinding "" "sub1" "" "" "" "es1"
    (mkPersistedFilter [] []) (Some "Changed") "100".

Definition sampleSubscription : @subscription plainBinding :=
  mkSubscription sampleInfo (newLogProcessor "sub1" (Some (mkABIEvent "Changed" []))
    sampleStream) "sub1:Changed" 0 false true false false.

Definition sampleMachine (script : list reply) : @machine (list reply) plainBinding :=
  mkMachine sampleSubscription script [].

(** The sample subscription, created from block 100, with the
    high-water-mark restored to 105 from a checkpoint. *)
Definition restoredAt105 (script : list reply) : @machine (list reply) plainBinding :=
  (@setCheckpointBlockHeight (list reply) plainBinding 105 (sampleMachine script)).2.

(** A filter installed as number 7 and polled once; the script goes on
    from there. *)
Definition polledOnce (script : list reply) : @machine (list reply) plainBinding :=
  (@processNewEvents (list reply) scriptedNode plainBinding plainErrorText
     pickyProcessing Background
     (@restartFilter (list reply) scriptedNode plainBinding Background 105
        (restoredAt105 (ReplyHexBigInt 7 :: ReplyLogs [] :: script))).2).2.

(** The sample info with an event that has no name, and the sample machine
    on a stream that does not ask for timestamps. *)
Definition unnamedInfo : @SubscriptionInfo plainBinding :=
  @mkSubscriptionInfo plainBinding "" "sub2" "" "" "" "es1"
    (mkPersistedFilter [] []) (Some "") "latest".

Definition plainMachine (script : list reply) : @machine (list reply) plainBinding :=
  mkMachine
    (mkSubscription sampleInfo
       (newLogProcessor "sub1" (Some (mkABIEvent "Changed" []))
          (mkEventStream (mkStreamInfo false) (mkLruCache 2 [])))
       "sub1:Changed" 7 true false false false)
    script [].

End events.

(** * Properties *)

(** ** The legacy key-value iterator *)
Module KVStoreFacts.
Import golang kldevents.

(** Whatever iterator is wrapped, releasing the wrapper leaves it in the
    state that [Next] leaves it in. *)
Lemma Release_as_Next {I} `{Iterator I} (k : levelDBKeyIterator I) :
  Release k = (Next k).2 ∧ i (Release k) = (iNext (i k)).2.
Proof.
  cbn. destruct (iNext (i k)) as [more i']. split; reflexivity.
Qed.

Lemma dbIter_Next_released (it : dbIter) :
  released (dbIter_Next it).2 = released it.
Proof.
  unfold dbIter_Next. destruct (released it) eqn:Hr; cbn; [exact Hr | reflexivity].
Qed.

Lemma dbIter_Next_pos (it : dbIter) :
  pos (dbIter_Next it).2 =
  if released it then pos it
  else Z.min (pos it + 1) (Z.of_nat (length (pairs it))).
Proof.
  unfold dbIter_Next. destruct (released it); reflexivity.
Qed.

(** C9. [levelDBKeyIterator.Release()] does not release the iterator it
    wraps: it leaves the wrapper exactly as [Next()] does once the boolean is
    dropped. On a goleveldb iterator this keeps the released flag as it was
    (where the iterator's own release would set it) and moves the position
    one pair forward, stopping past the last pair. *)
Theorem Release_advances_like_Next (k : levelDBKeyIterator dbIter) :
  Release k = (Next k).2 ∧
  released (i (Release k)) = released (i k) ∧
  pos (i (Release k)) =
    (if released (i k) then pos (i k)
     else Z.min (pos (i k) + 1) (Z.of_nat (length (pairs (i k))))) ∧
  (released (i k) = false → released (iRelease (i k)) = true ∧
                            i (Release k) ≠ iRelease (i k)).
Proof.
  destruct (Release_as_Next k) as [Hk Hi].
  split; [exact Hk |].
  rewrite Hi. cbn [iNext dbIter_Iterator].
  split; [apply dbIter_Next_released |].
  split; [apply dbIter_Next_pos |].
  intros Hr. split; [reflexivity |].
  intros Heq. apply (f_equal released) in Heq.
  rewrite dbIter_Next_released, Hr in Heq. discriminate.
Qed.

(** A fresh iterator over two pairs: released, it stands on the first pair
    and can still be read. *)
Example Release_on_fresh_iterator :
  let db := [([Byte.x61], [Byte.x01]); ([Byte.x62], [Byte.x02])] in
  let k := Release (NewIterator db) in
  pos (i k) = 0 ∧ released (i k) = false ∧ Key k = "a" ∧
  (Next k).1 = true ∧ Key (Next k).2 = "b".
Proof. repeat split. Qed.

End KVStoreFacts.

(** ** The FFCAPI request front end *)
Module FFCServerFacts.
Import golang ffcapiconnector.

Section Validation.

Context {E R : Type} `{Semver} `{ErrorText} `{RequestTypes} `{@Json R}.

(** [NewFFCServer] keeps the constraint parsed from
    [supportedAPIVersions]. *)
Lemma NewFFCServer_versionCheck (ms : ffcMethods E R) (c : Constraints) :
  NewConstraint supportedAPIVersions = inr c →
  versionCheck (NewFFCServer ms) = Some c.
Proof. unfold NewFFCServer. cbn. intros ->. reflexivity. Qed.

(** The four checks of [validateHeader], in the order the code makes them. *)
Lemma validateHeader_accepts (s : ffcServer E R) (c : Constraints)
    (header : Header) (handler : ffcHandler E R) :
  versionCheck s = Some c →
  validateHeader s header = Returns (inr handler) ↔
  (∃ v, NewVersion (Version header) = inr v ∧ Check c v = true) ∧
  RequestID header ≠ None ∧
  handlerMap s !! RequestType header = Some handler.
Proof.
  intros Hc. unfold validateHeader. rewrite Hc. split.
  - destruct (NewVersion (Version header)) as [err | v]; [discriminate |].
    destruct (Check c v) eqn:Hv; cbn; [| discriminate].
    destruct (RequestID header) as [id |]; [| discriminate].
    destruct (handlerMap s !! RequestType header) as [h |]; [| discriminate].
    intros [= ->]. repeat split; [exists v; split; [reflexivity | exact Hv] | discriminate].
  - intros [[v [-> Hv]] [Hid Hh]]. rewrite Hv. cbn.
    destruct (RequestID header) as [id |]; [| contradiction].
    rewrite Hh. reflexivity.
Qed.

(** A rejected header: the response is built from the error alone. *)
Lemma ServeFFCAPI_rejected (s : ffcServer E R) (ctx : context)
    (payload : string) (w : world E) (err : error) :
  validateHeader s (UnmarshalRequestBase payload) = Returns (inl err) →
  ServeFFCAPI s ctx payload w =
  Returns
    (mkResponse
       [("Content-Type", "application/json");
        ("Content-Length",
         pretty (Z.of_nat (String.length
           (Marshal (Some (ErrorResponse (Error err) ErrorReasonInvalidInputs))))))]
       400
       (Marshal (Some (ErrorResponse (Error err) ErrorReasonInvalidInputs))),
     mkWorld (engine w)
       (log w ++ [Logf ErrorLevel "Request failed: %s" [LError (Some err)]])).
Proof. intros Hv. unfold ServeFFCAPI. rewrite Hv. reflexivity. Qed.

(** C8. On a server built by [NewFFCServer] (the constraint "1.0.x" having
    parsed), [validateHeader] returns a handler and no error exactly when the
    header's version parses as a semantic version that the constraint
    accepts, the request identifier is not nil and the request type has a
    registered handler, which is the handler returned. When it returns an
    error, [ServeFFCAPI] runs no handler: the handlers' world is untouched,
    the only line logged is the failure, and the response is the error body
    with status 400. *)
Theorem validateHeader_gates_handlers (ms : ffcMethods E R) (c : Constraints) :
  NewConstraint supportedAPIVersions = inr c →
  (∀ header handler,
     validateHeader (NewFFCServer ms) header = Returns (inr handler) ↔
     (∃ v, NewVersion (Version header) = inr v ∧ Check c v = true) ∧
     RequestID header ≠ None ∧
     handlerMap (NewFFCServer ms) !! RequestType header = Some handler) ∧
  (∀ ctx payload w err,
     validateHeader (NewFFCServer ms) (UnmarshalRequestBase payload) = Returns (inl err) →
     ∃ resBytes,
       resBytes = Marshal (Some (ErrorResponse (Error err) ErrorReasonInvalidInputs)) ∧
       ServeFFCAPI (NewFFCServer ms) ctx payload w =
       Returns
         (mkResponse
            [("Content-Type", "application/json");
             ("Content-Length", pretty (Z.of_nat (String.length resBytes)))]
            400 resBytes,
          mkWorld (engine w)
            (log w ++ [Logf ErrorLevel "Request failed: %s" [LError (Some err)]]))).
Proof.
  intros Hc. pose proof (NewFFCServer_versionCheck ms c Hc) as Hs. split.
  - intros header handler. apply validateHeader_accepts. exact Hs.
  - intros ctx payload w err Hv. eexists. split; [reflexivity |].
    apply ServeFFCAPI_rejected. exact Hv.
Qed.

End Validation.

#[local] Existing Instances plainSemver plainErrorText plainRequestTypes plainJson.

(** Version 1.0.7 with an identifier and a registered type reaches the
    [execQuery] handler; version 2.0.0 is answered with status 400 and the
    handlers' counter stays at 0. *)
Lemma validateHeader_gates_handlers_witness :
  NewConstraint supportedAPIVersions = inr (1, 0) ∧
  validateHeader (NewFFCServer countingMethods)
    (mkHeader (Some "7e1f") "1.0.7" "exec_query")
  = Returns (inr (countingHandler "execQuery")) ∧
  ∃ resBytes,
    resBytes = Marshal (Some (ErrorResponse
                 (Error (Errorf FFCUnsupportedVersion [AString "2.0.0"]))
                 ErrorReasonInvalidInputs)) ∧
    ServeFFCAPI (NewFFCServer countingMethods) Background "2.0.0|7e1f|exec_query"
      (mkWorld 0%nat []) =
    Returns
      (mkResponse
         [("Content-Type", "application/json");
          ("Content-Length", pretty (Z.of_nat (String.length resBytes)))]
         400 resBytes,
       mkWorld 0%nat
         [Logf ErrorLevel "Request failed: %s"
            [LError (Some (Errorf FFCUnsupportedVersion [AString "2.0.0"]))]]).
Proof.
  pose proof (validateHeader_gates_handlers countingMethods (1, 0) eq_refl)
    as [Hiff Hserve].
  split; [reflexivity |]. split.
  - apply Hiff. split; [exists (1, 0, 7); split; reflexivity |].
    split; [discriminate | reflexivity].
  - apply (Hserve Background "2.0.0|7e1f|exec_query" (mkWorld 0%nat [])).
    reflexivity.
Defined.

(** An accepted request runs its handler once and answers 200. *)
Example ServeFFCAPI_accepted :
  ServeFFCAPI (NewFFCServer countingMethods) Background "1.0.7|7e1f|exec_query"
    (mkWorld 0%nat []) =
  Returns
    (mkResponse
       [("Content-Type", "application/json"); ("Content-Length", "9")]
       200 "execQuery",
     mkWorld 1%nat
       [Logf TraceLevel "--> %s %s"
          [LString "exec_query"; LString "1.0.7|7e1f|exec_query"];
        Logf TraceLevel "<-- %s %s %v"
          [LString "exec_query"; LReason (ErrorReasonOther ""); LError None]]).
Proof. vm_compute. reflexivity. Qed.

End FFCServerFacts.

(** ** The subscription runtime *)
Module SubscriptionFacts.
Import golang events.

(** Unfolds the monad and its primitive operations. *)
Ltac run :=
  unfold mbind, M_bind, mret, M_ret, getSub, modifySub, logf, emit, call,
    cacheGet, cacheAdd, lp_processLogEntry in *;
  cbn [fst snd sub node trace] in *.

Lemma rpcCalls_app (t1 t2 : list event_) :
  rpcCalls (t1 ++ t2) = rpcCalls t1 ++ rpcCalls t2.
Proof. unfold rpcCalls. apply flat_map_app. Qed.

Lemma callsTo_app (method : string) (t1 t2 : list event_) :
  callsTo method (t1 ++ t2) = (callsTo method t1 + callsTo method t2)%nat.
Proof.
  unfold callsTo. rewrite rpcCalls_app, List.filter_app, length_app. reflexivity.
Qed.

Lemma processing_app (t1 t2 : list event_) :
  processing (t1 ++ t2) = processing t1 ++ processing t2.
Proof. unfold processing. apply List.filter_app. Qed.

(** *** The timestamp cache *)

Lemma lookupEntry_removeEntry (key : string) (l : list (string * Z)) :
  lookupEntry key (removeEntry key l) = None.
Proof.
  induction l as [| [k v] l IH]; cbn; [reflexivity |].
  destruct (String.eqb k key) eqn:Hk; cbn; [exact IH |].
  rewrite Hk. exact IH.
Qed.

(** A miss leaves the cache as it is. *)
Lemma lruGet_miss (key : string) (c : lruCache) :
  lookupEntry key (evictList c) = None → lruGet key c = (None, c).
Proof. unfold lruGet. intros ->. reflexivity. Qed.

(** A hit returns the cached value and keeps it cached. *)
Lemma lruGet_hit (key : string) (c : lruCache) (v : Z) :
  lookupEntry key (evictList c) = Some v →
  (lruGet key c).1 = Some v ∧
  lookupEntry key (evictList (lruGet key c).2) = Some v.
Proof.
  unfold lruGet. intros ->. cbn. rewrite String.eqb_refl. split; reflexivity.
Qed.

(** In a cache with room for at least one entry, what was just added is
    found. *)
Lemma lruAdd_lookup (key : string) (v : Z) (c : lruCache) :
  (0 < size c)%nat →
  lookupEntry key (evictList (lruAdd key v c)) = Some v.
Proof.
  intros Hsize. unfold lruAdd.
  destruct (lookupEntry key (evictList c)) as [old |]; cbn [evictList].
  - cbn. rewrite String.eqb_refl. reflexivity.
  - destruct (size c <? length ((key, v) :: evictList c))%nat eqn:Hfull.
    + apply Nat.ltb_lt in Hfull. cbn [length] in Hfull.
      destruct (evictList c) as [| e l]; [cbn in Hfull; lia |].
      cbn. rewrite String.eqb_refl. reflexivity.
    + cbn. rewrite String.eqb_refl. reflexivity.
Qed.

Section Facts.

Context {N : Type} `{RPCClient N} `{EthBinding} `{ErrorText} `{LogProcessing}.

(** *** Construction *)

Lemma newSubscription_flags (sm : subscriptionManager) (addr : option Address)
    (i : SubscriptionInfo) (s : subscription) :
  (newSubscription sm addr i).1.1 = inr s →
  filterStale s = true ∧ filteredOnce s = false.
Proof.
  unfold newSubscription.
  destruct (streamByID sm (Stream i)) as [err | stream]; [discriminate |].
  destruct (ABIElementMarshalingToABIEvent (Event i)) as [err | ev]; [discriminate |].
  destruct addr as [a |]; destruct (String.eqb (Name i) "");
    (destruct ev as [ev |]; [destruct (String.eqb (eventName ev) "") |]);
    cbn; try discriminate; intros [= <-]; split; reflexivity.
Qed.

Lemma restoreSubscription_flags (sm : subscriptionManager)
    (i : SubscriptionInfo) (s : subscription) :
  restoreSubscription sm i = inr s →
  filterStale s = true ∧ filteredOnce s = false.
Proof.
  unfold restoreSubscription.
  destruct (String.eqb (GetID i) ""); [discriminate |].
  destruct (streamByID sm (Stream i)) as [err | stream]; [discriminate |].
  destruct (ABIElementMarshalingToABIEvent (Event i)) as [err | ev]; [discriminate |].
  intros [= <-]. split; reflexivity.
Qed.

(** *** Marking the filter stale *)

Lemma markFilterStale_run (ctx : context) (b : bool) (m : machine N) :
  markFilterStale ctx b m =
  (tt, mkMachine (set_filterStale b (sub m))
         (if b && negb (filterStale (sub m)) then
            (CallContext KBool (WithTimeout ctx 30) "eth_uninstallFilter"
               [ArgHexBigInt (filterID (sub m))] (node m)).2
          else node m)
         (trace m ++ staleEvents ctx b m)).
Proof.
  unfold markFilterStale, staleEvents. run.
  destruct (b && negb (filterStale (sub m))); cbn.
  - destruct (CallContext KBool _ _ _ (node m)) as [[err | ok] n]; cbn;
      rewrite <- !app_assoc; reflexivity.
  - reflexivity.
Qed.

Lemma staleEvents_calls (ctx : context) (b : bool) (m : machine N) :
  rpcCalls (staleEvents ctx b m) =
  if b && negb (filterStale (sub m)) then
    [(WithTimeout ctx 30, "eth_uninstallFilter", [ArgHexBigInt (filterID (sub m))])]
  else [].
Proof.
  unfold staleEvents. destruct (b && negb (filterStale (sub m))); reflexivity.
Qed.

(** C4. Two [markFilterStale(ctx, true)] in a row call
    [eth_uninstallFilter] at most once: once when the filter was not stale
    before the first, never otherwise, and the second makes no call at all.
    Whatever the node answers to the call, an error included, it only goes
    into the logged line: the first invocation returns with [filterStale]
    set and the rest of the subscription as it was. *)
Theorem markFilterStale_uninstalls_once (ctx1 ctx2 : context) (m : machine N) :
  let m1 := (markFilterStale ctx1 true m).2 in
  let m2 := (markFilterStale ctx2 true m1).2 in
  let r := (CallContext KBool (WithTimeout ctx1 30) "eth_uninstallFilter"
              [ArgHexBigInt (filterID (sub m))] (node m)).1 in
  callsTo "eth_uninstallFilter" (trace m2) =
    (callsTo "eth_uninstallFilter" (trace m) +
     (if filterStale (sub m) then 0 else 1))%nat ∧
  rpcCalls (trace m2) = rpcCalls (trace m1) ∧
  sub m1 = set_filterStale true (sub m) ∧
  filterStale (sub m1) = true ∧
  sub m2 = sub m1 ∧
  trace m1 =
    trace m ++
    EvLog (Logf DebugLevel "%s: Marking filter stale=%t, current sub filter stale=%t"
             [LString (logName (sub m)); LBool true; LBool (filterStale (sub m))]) ::
    (if filterStale (sub m) then []
     else
       [EvRPC (WithTimeout ctx1 30) "eth_uninstallFilter"
          [ArgHexBigInt (filterID (sub m))];
        EvLog (Logf InfoLevel "%s: Uninstalled filter. ok=%t (%s)"
                 [LString (logName (sub m));
                  LBool (match r with inr b => b | inl _ => false end);
                  LError (match r with inr _ => None | inl e => Some e end)])]).
Proof.
  intros m1 m2 r. subst m1 m2 r.
  rewrite !markFilterStale_run. cbn [snd sub node trace].
  rewrite !callsTo_app, !rpcCalls_app.
  unfold callsTo at 2 3. rewrite !staleEvents_calls. cbn [sub node trace].
  unfold staleEvents.
  destruct (filterStale (sub m)) eqn:Hstale; cbn.
  - repeat split; try lia; rewrite ?app_nil_r; reflexivity.
  - repeat split; try lia; rewrite ?app_nil_r; reflexivity.
Qed.

(** *** Installing the filter *)

Lemma restartFilter_run (ctx : context) (since : Z) (m : machine N) :
  restartFilter ctx since m =
  let f := mkEthFilter (Filter (info (sub m))) since "latest" in
  let call := EvRPC (WithTimeout ctx 30) "eth_newFilter" [ArgFilter f] in
  match CallContext KHexBigInt (WithTimeout ctx 30) "eth_newFilter" [ArgFilter f] (node m) with
  | (inl err, n) =>
      (Some (Errorf RPCCallReturnedError [AString "eth_newFilter"; AError err]),
       mkMachine (sub m) n (trace m ++ [call]))
  | (inr id, n) =>
      (None,
       mkMachine (set_filterStale false (set_filteredOnce false (set_filterID id (sub m))))
         n
         (trace m ++
          [call;
           EvLog (Logf DebugLevel "%s: Marking filter stale=%t, current sub filter stale=%t"
                    [LString (logName (sub m)); LBool false; LBool (filterStale (sub m))]);
           EvLog (Logf InfoLevel "%s: created filter from block %s: %s - %+v"
                    [LString (logName (sub m)); LInt since; LInt id;
                     LFilter (Filter (info (sub m)))])]))
  end.
Proof.
  unfold restartFilter. run.
  destruct (CallContext KHexBigInt _ _ _ (node m)) as [[err | id] n]; cbn.
  - reflexivity.
  - rewrite markFilterStale_run. cbn. rewrite <- !app_assoc. reflexivity.
Qed.

(** C1. When [restartFilter(ctx, since)] succeeds, the one call it made is
    [eth_newFilter], under a 30 second timeout, for a filter with the
    subscription's persisted addresses and topics, from-block [since] and
    to-block "latest". The call leaves the high-water-mark alone, so with
    [since] taken from [blockHWM] the from-block is the high-water-mark,
    whatever starting block the subscription was created with. *)
Theorem restartFilter_installs_from_since (ctx : context) (since : Z)
    (m m' : machine N) :
  restartFilter ctx since m = (None, m') →
  ∃ f,
    rpcCalls (trace m') =
      rpcCalls (trace m) ++ [(WithTimeout ctx 30, "eth_newFilter", [ArgFilter f])] ∧
    f_FromBlock f = since ∧
    f_ToBlock f = "latest" ∧
    f_persistedFilter f = Filter (info (sub m)) ∧
    blockHWM (sub m') = blockHWM (sub m) ∧
    (since = blockHWM (sub m) → f_FromBlock f = blockHWM (sub m')) ∧
    filterStale (sub m') = false.
Proof.
  rewrite restartFilter_run. cbn zeta.
  destruct (CallContext KHexBigInt _ _ _ (node m)) as [[err | id] n];
    [discriminate |].
  intros [= <-]. eexists. cbn [trace sub].
  rewrite rpcCalls_app. split; [reflexivity |].
  repeat split. intros ->. reflexivity.
Qed.

(** *** Timestamps *)

Lemma set_same_cache (s : subscription) :
  set_lp (set_blockTimestampCache (blockTimestampCache (stream (lp s))) (lp s)) s = s.
Proof.
  unfold set_lp, set_blockTimestampCache.
  destruct s as [i [id ev [sp c] hwm] ? ? ? ? ? ?]. reflexivity.
Qed.

Lemma getEventTimestamp_run (ctx : context) (l : logEntry) (m : machine N) :
  getEventTimestamp ctx l m =
  let blockNumber := HexBigIntString (BlockNumber l) in
  let call := EvRPC (WithTimeout ctx 30) "eth_getBlockByNumber"
                [ArgString blockNumber; ArgBool false] in
  match lookupEntry blockNumber (evictList (cacheOf m)) with
  | Some ts =>
      (mkLogEntry (BlockNumber l) ts (Data l),
       mkMachine (withCache (lruGet blockNumber (cacheOf m)).2 m) (node m) (trace m))
  | None =>
      match CallContext KHeader (WithTimeout ctx 30) "eth_getBlockByNumber"
              [ArgString blockNumber; ArgBool false] (node m) with
      | (inl err, n) =>
          (mkLogEntry (BlockNumber l) 0 (Data l),
           mkMachine (sub m) n
             (trace m ++
              [call;
               EvLog (Logf ErrorLevel "Unable to retrieve block[%s] timestamp: %s"
                        [LString blockNumber; LError (Some err)])]))
      | (inr hdr, n) =>
          (mkLogEntry (BlockNumber l) (Time hdr) (Data l),
           mkMachine (withCache (lruAdd blockNumber (Time hdr) (cacheOf m)) m) n
             (trace m ++ [call]))
      end
  end.
Proof.
  unfold getEventTimestamp, withCache, cacheOf. run. cbn zeta.
  unfold lruGet.
  destruct (lookupEntry _ (evictList _)) as [ts |] eqn:Hhit; cbn.
  - reflexivity.
  - rewrite set_same_cache.
    destruct (CallContext KHeader _ _ _ (node m)) as [[err | hdr] n]; cbn.
    + rewrite <- !app_assoc. reflexivity.
    + reflexivity.
Qed.

(** C6. [getEventTimestamp] looks the entry's block number up in the cache
    first. On a hit the entry gets the cached timestamp and no call is made
    (trace and node are as before, the value stays cached). On a miss exactly
    one call is made, [eth_getBlockByNumber] for that block with [false],
    under a timeout of its own of at most 30 seconds: if it succeeds the
    entry gets the header's time and the cache gets that value added; if it
    fails the entry gets timestamp 0 and the cache is exactly as before. The
    call returns in every case and touches nothing else of the entry. *)
Theorem getEventTimestamp_cache_then_node (ctx : context) (l : logEntry)
    (m : machine N) :
  let key := HexBigIntString (BlockNumber l) in
  let r := getEventTimestamp ctx l m in
  let answer := CallContext KHeader (WithTimeout ctx 30) "eth_getBlockByNumber"
                  [ArgString key; ArgBool false] (node m) in
  asReceived r.1 = asReceived l ∧
  match lookupEntry key (evictList (cacheOf m)) with
  | Some ts =>
      Timestamp r.1 = ts ∧ trace r.2 = trace m ∧ node r.2 = node m ∧
      lookupEntry key (evictList (cacheOf r.2)) = Some ts
  | None =>
      rpcCalls (trace r.2) =
        rpcCalls (trace m) ++
        [(WithTimeout ctx 30, "eth_getBlockByNumber", [ArgString key; ArgBool false])] ∧
      (∃ d, deadline (WithTimeout ctx 30) = Some d ∧ d ≤ 30) ∧
      match answer.1 with
      | inr hdr =>
          Timestamp r.1 = Time hdr ∧
          cacheOf r.2 = lruAdd key (Time hdr) (cacheOf m)
      | inl err =>
          Timestamp r.1 = 0 ∧ cacheOf r.2 = cacheOf m ∧
          lookupEntry key (evictList (cacheOf r.2)) = None
      end
  end.
Proof.
  intros key r answer. subst r answer.
  rewrite getEventTimestamp_run. fold key. cbn zeta.
  destruct (lookupEntry key (evictList (cacheOf m))) as [ts |] eqn:Hhit.
  - cbn. repeat split.
    unfold cacheOf, withCache. cbn. fold (cacheOf m).
    apply (lruGet_hit key (cacheOf m) ts Hhit).
  - destruct (CallContext KHeader _ _ _ (node m)) as [[err | hdr] n]; cbn.
    + rewrite rpcCalls_app. repeat split; try assumption.
      cbn. destruct (deadline ctx) as [d |]; eexists; split; try reflexivity; lia.
    + rewrite rpcCalls_app. repeat split.
      cbn. destruct (deadline ctx) as [d |]; eexists; split; try reflexivity; lia.
Qed.

(** *** Polling *)

Lemma sameButLp_refl (s : subscription) : sameButLp s s.
Proof. unfold sameButLp, set_lp. destruct s; reflexivity. Qed.

Lemma sameButLp_trans (s1 s2 s3 : subscription) :
  sameButLp s1 s2 → sameButLp s2 s3 → sameButLp s1 s3.
Proof.
  unfold sameButLp, set_lp. intros H12 H23.
  destruct s1, s2, s3; cbn in *. congruence.
Qed.

Lemma sameButLp_set_lp (s : subscription) (x : logProcessor) :
  sameButLp s (set_lp x s).
Proof. unfold sameButLp, set_lp. destruct s; reflexivity. Qed.

Lemma sameButLp_logName (s s' : subscription) :
  sameButLp s s' → logName s' = logName s.
Proof. unfold sameButLp. intros <-. reflexivity. Qed.

Lemma quiet_app (d1 d2 : list event_) : quiet d1 → quiet d2 → quiet (d1 ++ d2).
Proof. unfold quiet. rewrite rpcCalls_app. apply Forall_app_2. Qed.

(** Enrichment adds no delivery to the trace and keeps the entry's block
    number and data. *)
Lemma getEventTimestamp_frame (ctx : context) (l : logEntry) (m : machine N) :
  ∃ delta,
    trace (getEventTimestamp ctx l m).2 = trace m ++ delta ∧
    quiet delta ∧ processing delta = [] ∧
    asReceived (getEventTimestamp ctx l m).1 = asReceived l ∧
    sameButLp (sub m) (sub (getEventTimestamp ctx l m).2).
Proof.
  rewrite getEventTimestamp_run. cbn zeta.
  destruct (lookupEntry _ (evictList (cacheOf m))) as [ts |].
  - exists []. cbn. rewrite app_nil_r. repeat split; [constructor |].
    apply sameButLp_set_lp.
  - destruct (CallContext KHeader _ _ _ (node m)) as [[err | hdr] n];
      eexists; cbn; (split; [reflexivity |]); repeat split;
      try (repeat constructor); try apply sameButLp_refl.
    apply sameButLp_set_lp.
Qed.

(** One turn of the loop: the entry is handed to the log processor whatever
    enrichment did, and the turn ends normally whatever the log processor
    returned. *)
Lemma loopBody_spec (idx : Z) (l : logEntry) (m : machine N) :
  ∃ delta d,
    trace (loopBody idx l m).2 = trace m ++ delta ∧
    quiet delta ∧
    asReceived d.1 = asReceived l ∧
    processing delta = deliveryEvents (logName (sub m)) idx d ∧
    sameButLp (sub m) (sub (loopBody idx l m).2).
Proof.
  unfold loopBody. run.
  set (enrich := (if Timestamps (spec (stream (lp (sub m))))
                  then getEventTimestamp Background l
                  else λ m0, (l, m0)) m).
  assert (∃ delta, trace enrich.2 = trace m ++ delta ∧ quiet delta ∧
                   processing delta = [] ∧ asReceived enrich.1 = asReceived l ∧
                   sameButLp (sub m) (sub enrich.2))
    as (d1 & Htr & Hq & Hp & Hl & Hs).
  { subst enrich. destruct (Timestamps _).
    - apply getEventTimestamp_frame.
    - exists []. cbn. rewrite app_nil_r. repeat split; [constructor |].
      apply sameButLp_refl. }
  destruct enrich as [l' m1]. cbn [fst snd] in *.
  destruct (processLogEntry (logName (sub m)) l' idx (lp (sub m1))) as [r lp'].
  exists (d1 ++ deliveryEvents (logName (sub m)) idx (l', r)), (l', r).
  assert (Hs' : sameButLp (sub m) (set_lp lp' (sub m1))).
  { eapply sameButLp_trans; [exact Hs | apply sameButLp_set_lp]. }
  destruct r as [err |]; cbn [fst snd sub trace]; rewrite Htr, <- !app_assoc.
  - repeat split; try assumption.
    + apply quiet_app; [exact Hq | repeat constructor].
    + rewrite processing_app, Hp. reflexivity.
  - repeat split; try assumption.
    + apply quiet_app; [exact Hq | repeat constructor].
    + rewrite processing_app, Hp. reflexivity.
Qed.

(** The whole loop: every entry is delivered, in the order of the batch and
    with its index, whatever happened to the entries before it. *)
Lemma rangeLogs_spec (logs : list logEntry) (idx : Z) (m : machine N) :
  ∃ delta done,
    trace (rangeLogs idx logs m).2 = trace m ++ delta ∧
    quiet delta ∧
    (asReceived ∘ fst) <$> done = asReceived <$> logs ∧
    processing delta =
      concat (imap (λ k, deliveryEvents (logName (sub m)) (idx + Z.of_nat k)) done) ∧
    sameButLp (sub m) (sub (rangeLogs idx logs m).2).
Proof.
  revert idx m. induction logs as [| l logs IH]; intros idx m.
  - exists [], []. cbn. rewrite app_nil_r. repeat split; [constructor |].
    apply sameButLp_refl.
  - cbn [rangeLogs]. run.
    destruct (loopBody_spec idx l m) as (d1 & d & Htr1 & Hq1 & Hd & Hp1 & Hs1).
    destruct (loopBody idx l m) as [[] m1]. cbn [snd] in *.
    destruct (IH (idx + 1) m1) as (d2 & done & Htr2 & Hq2 & Hdone & Hp2 & Hs2).
    exists (d1 ++ d2), (d :: done).
    rewrite Htr2, Htr1, <- app_assoc. split; [reflexivity |].
    split; [apply quiet_app; assumption |].
    split; [cbn; rewrite Hd; f_equal; exact Hdone |].
    split; [| eapply sameButLp_trans; eassumption].
    rewrite processing_app, Hp1, Hp2, imap_cons. cbn [concat].
    rewrite Z.add_0_r, (sameButLp_logName _ _ Hs1). f_equal. f_equal.
    apply imap_ext. intros k x _. cbn. f_equal. lia.
Qed.

Lemma processNewEvents_run (ctx : context) (m : machine N) :
  processNewEvents ctx m =
  let rpcMethod :=
    if filteredOnce (sub m) then "eth_getFilterChanges" else "eth_getFilterLogs" in
  let poll := EvRPC (WithTimeout ctx 30) rpcMethod [ArgHexBigInt (filterID (sub m))] in
  match CallContext KLogs (WithTimeout ctx 30) rpcMethod
          [ArgHexBigInt (filterID (sub m))] (node m) with
  | (inl err, n) =>
      let m1 := mkMachine (sub m) n (trace m ++ [poll]) in
      (Some err,
       if Contains (Error err) "filter not found"
       then (markFilterStale (WithTimeout ctx 30) true m1).2
       else m1)
  | (inr logs, n) =>
      let received :=
        if (0 <? length logs)%nat then
          [EvLog (Logf DebugLevel "%s: received %d events (%s)"
                    [LString (logName (sub m)); LInt (Z.of_nat (length logs));
                     LString rpcMethod])]
        else [] in
      let m2 := (rangeLogs 0 logs
                   (mkMachine (sub m) n (trace m ++ poll :: received))).2 in
      (None, mkMachine (set_filteredOnce true (sub m2)) (node m2) (trace m2))
  end.
Proof.
  unfold processNewEvents. run. cbn zeta.
  destruct (CallContext KLogs _ _ _ (node m)) as [[err | logs] n]; cbn.
  - destruct (Contains (Error err) "filter not found"); cbn; [| reflexivity].
    destruct (markFilterStale _ true _) as [[] m1]. reflexivity.
  - destruct (length logs) as [| k]; cbn.
    + destruct (rangeLogs 0 logs _) as [[] m2]. reflexivity.
    + rewrite <- app_assoc. cbn.
      destruct (rangeLogs 0 logs _) as [[] m2]. reflexivity.
Qed.

Lemma poll_is_not_uninstall (b : bool) :
  String.eqb (if b then "eth_getFilterChanges" else "eth_getFilterLogs")
    "eth_uninstallFilter" = false.
Proof. destruct b; reflexivity. Qed.

(** C2. When the poll call of [processNewEvents] fails, the error is
    returned to the caller as it is. If its message contains "filter not
    found", [markFilterStale(ctx, true)] has run: [filterStale] is set and,
    when the filter was not stale already, [eth_uninstallFilter] has been
    attempted once. If it does not, nothing but the poll happened: the
    subscription is unchanged and no further call was made. For a filter
    that was not stale, it is stale afterwards exactly when the message
    contains "filter not found". *)
Theorem poll_failure_marks_stale_iff_filter_not_found (ctx : context)
    (m : machine N) (err : error) (n : N) :
  CallContext KLogs (WithTimeout ctx 30)
    (if filteredOnce (sub m) then "eth_getFilterChanges" else "eth_getFilterLogs")
    [ArgHexBigInt (filterID (sub m))] (node m) = (inl err, n) →
  let r := processNewEvents ctx m in
  let notFound := Contains (Error err) "filter not found" in
  r.1 = Some err ∧
  sub r.2 = (if notFound then set_filterStale true (sub m) else sub m) ∧
  rpcCalls (trace r.2) =
    rpcCalls (trace m) ++
    (WithTimeout ctx 30,
     if filteredOnce (sub m) then "eth_getFilterChanges" else "eth_getFilterLogs",
     [ArgHexBigInt (filterID (sub m))]) ::
    (if notFound && negb (filterStale (sub m)) then
       [(WithTimeout (WithTimeout ctx 30) 30, "eth_uninstallFilter",
         [ArgHexBigInt (filterID (sub m))])]
     else []) ∧
  (filterStale (sub m) = false →
   (filterStale (sub r.2) = true ↔ notFound = true) ∧
   (callsTo "eth_uninstallFilter" (trace r.2) =
      S (callsTo "eth_uninstallFilter" (trace m)) ↔ notFound = true)).
Proof.
  intros Hpoll r notFound. subst r notFound.
  rewrite processNewEvents_run. cbn zeta. rewrite Hpoll.
  set (poll := EvRPC (WithTimeout ctx 30)
                 (if filteredOnce (sub m) then "eth_getFilterChanges"
                  else "eth_getFilterLogs") [ArgHexBigInt (filterID (sub m))]).
  assert (Hpoll0 : callsTo "eth_uninstallFilter" [poll] = 0%nat).
  { unfold callsTo, poll. cbn. rewrite poll_is_not_uninstall. reflexivity. }
  destruct (Contains (Error err) "filter not found") eqn:Hnf.
  - rewrite markFilterStale_run. cbn [fst snd sub node trace].
    rewrite (callsTo_app _ (trace m ++ [poll])), (callsTo_app _ (trace m)), Hpoll0.
    rewrite (rpcCalls_app (trace m ++ [poll])), (rpcCalls_app (trace m)).
    rewrite <- app_assoc.
    unfold callsTo at 2. rewrite staleEvents_calls. cbn [sub].
    split; [reflexivity |]. split; [reflexivity |]. split; [reflexivity |].
    intros Hstale. rewrite Hstale. cbn. split; split; intros _; [reflexivity.. | lia].
  - cbn [fst snd sub node trace].
    rewrite (callsTo_app _ (trace m)), Hpoll0, (rpcCalls_app (trace m)).
    split; [reflexivity |]. split; [reflexivity |]. split; [reflexivity |].
    intros Hstale. split; split; try discriminate.
    + intros Hs. congruence.
    + lia.
Qed.

(** C3. The poll of [processNewEvents] is the first call it makes, under a
    30 second timeout and for the current filter: [eth_getFilterChanges]
    when [filteredOnce] is set, [eth_getFilterLogs] when it is not; the
    calls after it are block header look-ups or the uninstall. When the poll
    succeeds, [processNewEvents] returns no error and leaves [filteredOnce]
    set. A successful [restartFilter] leaves it cleared, so the poll that
    follows is [eth_getFilterLogs] on the new filter. *)
Theorem poll_method_follows_filteredOnce :
  (∀ (ctx : context) (m : machine N), ∃ rest,
     rpcCalls (trace (processNewEvents ctx m).2) =
       rpcCalls (trace m) ++
       (WithTimeout ctx 30,
        if filteredOnce (sub m) then "eth_getFilterChanges" else "eth_getFilterLogs",
        [ArgHexBigInt (filterID (sub m))]) :: rest ∧
     Forall (λ c, c.1.2 = "eth_getBlockByNumber" ∨ c.1.2 = "eth_uninstallFilter") rest) ∧
  (∀ (ctx : context) (m : machine N) logs n,
     CallContext KLogs (WithTimeout ctx 30)
       (if filteredOnce (sub m) then "eth_getFilterChanges" else "eth_getFilterLogs")
       [ArgHexBigInt (filterID (sub m))] (node m) = (inr logs, n) →
     (processNewEvents ctx m).1 = None ∧
     filteredOnce (sub (processNewEvents ctx m).2) = true) ∧
  (∀ (ctx : context) (since : Z) (m m1 : machine N),
     restartFilter ctx since m = (None, m1) →
     filteredOnce (sub m1) = false ∧
     ∀ ctx', ∃ rest,
       rpcCalls (trace (processNewEvents ctx' m1).2) =
         rpcCalls (trace m1) ++
         (WithTimeout ctx' 30, "eth_getFilterLogs", [ArgHexBigInt (filterID (sub m1))])
         :: rest).
Proof.
  assert (Hfirst : ∀ (ctx : context) (m : machine N), ∃ rest,
    rpcCalls (trace (processNewEvents ctx m).2) =
      rpcCalls (trace m) ++
      (WithTimeout ctx 30,
       if filteredOnce (sub m) then "eth_getFilterChanges" else "eth_getFilterLogs",
       [ArgHexBigInt (filterID (sub m))]) :: rest ∧
    Forall (λ c, c.1.2 = "eth_getBlockByNumber" ∨ c.1.2 = "eth_uninstallFilter") rest).
  { intros ctx m. rewrite processNewEvents_run. cbn zeta.
    destruct (CallContext KLogs _ _ _ (node m)) as [[err | logs] n].
    - destruct (Contains (Error err) "filter not found").
      + rewrite markFilterStale_run. cbn [fst snd sub node trace].
        rewrite (rpcCalls_app (trace m ++ _)), (rpcCalls_app (trace m)).
        rewrite <- app_assoc, staleEvents_calls.
        eexists. split; [reflexivity |].
        destruct (true && negb _); [| constructor].
        apply Forall_cons; split; [right; reflexivity | constructor].
      + cbn [snd trace]. rewrite (rpcCalls_app (trace m)).
        eexists. split; [reflexivity |]. constructor.
    - cbn [snd trace].
      destruct (rangeLogs_spec logs 0 (mkMachine (sub m) n
        (trace m ++ EvRPC (WithTimeout ctx 30)
           (if filteredOnce (sub m) then "eth_getFilterChanges" else "eth_getFilterLogs")
           [ArgHexBigInt (filterID (sub m))] ::
         (if (0 <? length logs)%nat then
            [EvLog (Logf DebugLevel "%s: received %d events (%s)"
               [LString (logName (sub m)); LInt (Z.of_nat (length logs));
                LString (if filteredOnce (sub m) then "eth_getFilterChanges"
                         else "eth_getFilterLogs")])]
          else []))))
        as (delta & done & Htr & Hq & _).
      rewrite Htr. cbn [trace].
      rewrite (rpcCalls_app (trace m ++ _)), (rpcCalls_app (trace m)).
      exists (rpcCalls delta). split.
      + rewrite <- app_assoc. f_equal. cbn.
        destruct (length logs); reflexivity.
      + eapply Forall_impl; [exact Hq |]. intros c Hc. left. exact Hc. }
  split; [exact Hfirst |]. split.
  - intros ctx m logs n Hpoll. rewrite processNewEvents_run. cbn zeta.
    rewrite Hpoll. split; reflexivity.
  - intros ctx since m m1 Hrestart.
    assert (Honce : filteredOnce (sub m1) = false).
    { rewrite restartFilter_run in Hrestart. cbn zeta in Hrestart.
      destruct (CallContext KHexBigInt _ _ _ (node m)) as [[err | id] n];
        [discriminate |].
      injection Hrestart as <-. reflexivity. }
    split; [exact Honce |]. intros ctx'.
    destruct (Hfirst ctx' m1) as (rest & Hrest & _).
    rewrite Honce in Hrest. exists rest. exact Hrest.
Qed.

(** C7. When the poll succeeds with a batch, [processNewEvents] returns no
    error and the trace shows one delivery per entry of the batch, in the
    order of the batch and numbered from 0: the entry as received (enrichment
    may have set its timestamp) handed to [processLogEntry], followed, when
    that returned an error, by the line logged for it, and then by the next
    entry. *)
Theorem failed_entry_does_not_stop_batch (ctx : context) (m : machine N)
    (logs : list logEntry) (n : N) :
  CallContext KLogs (WithTimeout ctx 30)
    (if filteredOnce (sub m) then "eth_getFilterChanges" else "eth_getFilterLogs")
    [ArgHexBigInt (filterID (sub m))] (node m) = (inr logs, n) →
  ∃ done : list (logEntry * option error),
    (processNewEvents ctx m).1 = None ∧
    (asReceived ∘ fst) <$> done = asReceived <$> logs ∧
    processing (trace (processNewEvents ctx m).2) =
      processing (trace m) ++
      concat (imap (λ k, deliveryEvents (logName (sub m)) (Z.of_nat k)) done).
Proof.
  intros Hpoll. rewrite processNewEvents_run. cbn zeta. rewrite Hpoll.
  cbn [fst snd trace].
  match goal with
  | |- context [rangeLogs 0 logs ?m1] =>
      destruct (rangeLogs_spec logs 0 m1) as (delta & done & Htr & _ & Hdone & Hp & _)
  end.
  exists done. split; [reflexivity |]. split; [exact Hdone |].
  rewrite Htr. cbn [trace sub] in *.
  rewrite (processing_app (trace m ++ _)), (processing_app (trace m)), Hp.
  rewrite <- app_assoc. f_equal.
  replace (processing _) with (@nil event_).
  - reflexivity.
  - destruct (0 <? length logs)%nat; reflexivity.
Qed.

(** *** The initial block height *)

(** C5, as the code has it. With a starting block that is neither empty nor
    "latest", [setInitialBlockHeight] makes no call and changes nothing, the
    high-water-mark included: it returns the block parsed as a decimal big
    integer, or an error when it does not parse. Otherwise it makes one call,
    [eth_blockNumber] under a 30 second timeout: on success the block number
    becomes the high-water-mark and is returned; on failure an error is
    returned and the subscription is unchanged. *)
Theorem setInitialBlockHeight_sources (ctx : context) (m : machine N) :
  let r := setInitialBlockHeight ctx m in
  let fromBlock := FromBlock (info (sub m)) in
  let answer := CallContext KHexBigInt (WithTimeout ctx 30) "eth_blockNumber" []
                  (node m) in
  if negb (String.eqb fromBlock "") && negb (String.eqb fromBlock "latest") then
    r.2 = m ∧
    r.1 = match SetString10 fromBlock with
          | Some i => inr i
          | None => inl (Errorf EventStreamsSubscribeBadBlock [])
          end
  else
    rpcCalls (trace r.2) =
      rpcCalls (trace m) ++ [(WithTimeout ctx 30, "eth_blockNumber", [])] ∧
    match answer.1 with
    | inr i => r.1 = inr i ∧ blockHWM (sub r.2) = i
    | inl err =>
        r.1 = inl (Errorf RPCCallReturnedError [AString "eth_blockNumber"; AError err]) ∧
        sub r.2 = sub m
    end.
Proof.
  intros r fromBlock answer. subst r fromBlock answer.
  unfold setInitialBlockHeight, FromBlockLatest. run.
  destruct (negb (String.eqb (FromBlock (info (sub m))) "") &&
            negb (String.eqb (FromBlock (info (sub m))) "latest")).
  - destruct (SetString10 (FromBlock (info (sub m)))); split; reflexivity.
  - destruct (CallContext KHexBigInt _ _ _ (node m)) as [[err | i] n]; cbn.
    + rewrite (rpcCalls_app (trace m)). repeat split.
    + rewrite <- app_assoc, (rpcCalls_app (trace m)). repeat split.
Qed.

(** *** Across calls *)

Lemma sameButLp_filterStale (s s' : subscription) :
  sameButLp s s' → filterStale s' = filterStale s.
Proof. unfold sameButLp. intros <-. reflexivity. Qed.

(** A stale filter stays stale through every method of the subscription
    but a [restartFilter] that succeeds. *)
Lemma stale_until_restartFilter_succeeds (ctx : context) (deleting : bool)
    (i since : Z) (m : machine N) :
  filterStale (sub m) = true →
  filterStale (sub (processNewEvents ctx m).2) = true ∧
  filterStale (sub (unsubscribe ctx deleting m).2) = true ∧
  filterStale (sub (requestReset m).2) = true ∧
  filterStale (sub (setInitialBlockHeight ctx m).2) = true ∧
  filterStale (sub (setCheckpointBlockHeight i m).2) = true ∧
  ((restartFilter ctx since m).1 ≠ None →
   filterStale (sub (restartFilter ctx since m).2) = true).
Proof.
  intros Hstale. split; [| split; [| split; [| split; [| split]]]].
  - rewrite processNewEvents_run. cbn zeta.
    destruct (CallContext KLogs _ _ _ (node m)) as [[err | logs] n].
    + destruct (Contains (Error err) "filter not found"); [| exact Hstale].
      rewrite markFilterStale_run. reflexivity.
    + cbn [snd sub].
      match goal with
      | |- context [rangeLogs 0 logs ?m1] =>
          destruct (rangeLogs_spec logs 0 m1) as (? & ? & _ & _ & _ & _ & Hs)
      end.
      apply sameButLp_filterStale in Hs. cbn [sub] in Hs.
      destruct (sub (rangeLogs 0 logs _).2); cbn in *. congruence.
  - unfold unsubscribe. run. rewrite markFilterStale_run. reflexivity.
  - unfold requestReset. run. exact Hstale.
  - unfold setInitialBlockHeight. run.
    destruct (negb _ && negb _).
    + destruct (SetString10 _); exact Hstale.
    + destruct (CallContext KHexBigInt _ _ _ (node m)) as [[err | h] n];
        exact Hstale.
  - unfold setCheckpointBlockHeight. run. exact Hstale.
  - rewrite restartFilter_run. cbn zeta.
    destruct (CallContext KHexBigInt _ _ _ (node m)) as [[err | id] n]; cbn.
    + intros _. exact Hstale.
    + intros Hne. contradiction.
Qed.

(** A block whose timestamp a first look-up obtained, from the cache or
    from the node, is answered from the cache by the next look-up: same
    timestamp, no further call. The cache must have room for an entry. *)
Lemma second_lookup_is_a_hit (ctx1 ctx2 : context) (l1 l2 : logEntry)
    (m : machine N) :
  let key := HexBigIntString (BlockNumber l1) in
  let r1 := getEventTimestamp ctx1 l1 m in
  let r2 := getEventTimestamp ctx2 l2 r1.2 in
  BlockNumber l2 = BlockNumber l1 →
  (0 < size (cacheOf m))%nat →
  (is_Some (lookupEntry key (evictList (cacheOf m))) ∨
   ∃ hdr, (CallContext KHeader (WithTimeout ctx1 30) "eth_getBlockByNumber"
             [ArgString key; ArgBool false] (node m)).1 = inr hdr) →
  Timestamp r2.1 = Timestamp r1.1 ∧ trace r2.2 = trace r1.2 ∧ node r2.2 = node r1.2.
Proof.
  intros key r1 r2 Hblock Hsize Hfirst.
  assert (Hcached : lookupEntry key (evictList (cacheOf r1.2)) = Some (Timestamp r1.1)).
  { subst r1. rewrite getEventTimestamp_run. fold key. cbn zeta.
    destruct (lookupEntry key (evictList (cacheOf m))) as [ts |] eqn:Hhit.
    - cbn. unfold cacheOf, withCache. cbn. fold (cacheOf m).
      apply (lruGet_hit key (cacheOf m) ts Hhit).
    - destruct Hfirst as [[ts Hts] | [hdr Hhdr]]; [discriminate |].
      destruct (CallContext KHeader _ _ _ (node m)) as [[err | hdr'] n];
        cbn in Hhdr; [discriminate |].
      cbn. unfold cacheOf, withCache. cbn. fold (cacheOf m).
      apply lruAdd_lookup. exact Hsize. }
  subst r2. rewrite getEventTimestamp_run. cbn zeta.
  rewrite Hblock. fold key. rewrite Hcached. repeat split.
Qed.

(** *** A subscription before its first install *)

Lemma newSubscription_filterID (sm : subscriptionManager) (addr : option Address)
    (i : SubscriptionInfo) (s : subscription) :
  (newSubscription sm addr i).1.1 = inr s → filterID s = 0.
Proof.
  unfold newSubscription.
  destruct (streamByID sm (Stream i)) as [err | stream]; [discriminate |].
  destruct (ABIElementMarshalingToABIEvent (Event i)) as [err | ev]; [discriminate |].
  destruct addr as [a |]; destruct (String.eqb (Name i) "");
    (destruct ev as [ev |]; [destruct (String.eqb (eventName ev) "") |]);
    cbn; try discriminate; intros [= <-]; reflexivity.
Qed.

Lemma restoreSubscription_filterID (sm : subscriptionManager)
    (i : SubscriptionInfo) (s : subscription) :
  restoreSubscription sm i = inr s → filterID s = 0.
Proof.
  unfold restoreSubscription.
  destruct (String.eqb (GetID i) ""); [discriminate |].
  destruct (streamByID sm (Stream i)) as [err | stream]; [discriminate |].
  destruct (ABIElementMarshalingToABIEvent (Event i)) as [err | ev]; [discriminate |].
  intros [= <-]. reflexivity.
Qed.

(** The first call [processNewEvents] makes is the poll, whatever the
    flags of the subscription are. *)
Lemma processNewEvents_first_call (ctx : context) (m : machine N) :
  ∃ rest,
    rpcCalls (trace (processNewEvents ctx m).2) =
      rpcCalls (trace m) ++
      (WithTimeout ctx 30,
       if filteredOnce (sub m) then "eth_getFilterChanges" else "eth_getFilterLogs",
       [ArgHexBigInt (filterID (sub m))]) :: rest.
Proof.
  rewrite processNewEvents_run. cbn zeta.
  destruct (CallContext KLogs _ _ _ (node m)) as [[err | logs] n].
  - destruct (Contains (Error err) "filter not found").
    + rewrite markFilterStale_run. cbn [fst snd sub node trace].
      rewrite (rpcCalls_app (trace m ++ _)), (rpcCalls_app (trace m)), <- app_assoc.
      eexists. reflexivity.
    + cbn [snd trace]. rewrite (rpcCalls_app (trace m)). eexists. reflexivity.
  - cbn [snd trace].
    match goal with
    | |- context [rangeLogs 0 logs ?m1] =>
        destruct (rangeLogs_spec logs 0 m1) as (delta & done & Htr & _)
    end.
    rewrite Htr. cbn [trace].
    rewrite (rpcCalls_app (trace m ++ _)), (rpcCalls_app (trace m)), <- app_assoc.
    exists (rpcCalls delta). f_equal. cbn. destruct (length logs); reflexivity.
Qed.

(** A poll does not clear [filterStale]. *)
Lemma processNewEvents_keeps_stale (ctx : context) (m : machine N) :
  filterStale (sub m) = true → filterStale (sub (processNewEvents ctx m).2) = true.
Proof.
  intros Hstale. rewrite processNewEvents_run. cbn zeta.
  destruct (CallContext KLogs _ _ _ (node m)) as [[err | logs] n].
  - destruct (Contains (Error err) "filter not found"); [| exact Hstale].
    rewrite markFilterStale_run. reflexivity.
  - cbn [snd sub].
    match goal with
    | |- context [rangeLogs 0 logs ?m1] =>
        destruct (rangeLogs_spec logs 0 m1) as (? & ? & _ & _ & _ & _ & Hs)
    end.
    apply sameButLp_filterStale in Hs. cbn [sub] in Hs.
    destruct (sub (rangeLogs 0 logs _).2); cbn in *. congruence.
Qed.

(** C10, as the code has it. A subscription returned by [newSubscription] or
    by [restoreSubscription] has [filterStale = true], [filteredOnce = false]
    and filter id 0. The flags record that no filter is installed; they do
    not hold a poll back: [processNewEvents] does not read [filterStale],
    and run on such a subscription it polls filter 0 with
    [eth_getFilterLogs] and leaves the subscription stale. The first
    [restartFilter] that succeeds clears [filterStale], and the poll after it
    is the full fetch of the filter the node installed. *)
Theorem constructed_subscription_is_stale_and_polls_unguarded
    (sm : subscriptionManager) (addr : option Address) (i : SubscriptionInfo)
    (s : subscription) :
  (newSubscription sm addr i).1.1 = inr s ∨ restoreSubscription sm i = inr s →
  filterStale s = true ∧ filteredOnce s = false ∧ filterID s = 0 ∧
  ∀ (ctx : context) (n : N) (t : list event_),
    (∃ rest,
       rpcCalls (trace (processNewEvents ctx (mkMachine s n t)).2) =
         rpcCalls t ++
         (WithTimeout ctx 30, "eth_getFilterLogs", [ArgHexBigInt 0]) :: rest) ∧
    filterStale (sub (processNewEvents ctx (mkMachine s n t)).2) = true ∧
    ∀ since m1,
      restartFilter ctx since (mkMachine s n t) = (None, m1) →
      filterStale (sub m1) = false ∧ filteredOnce (sub m1) = false ∧
      (CallContext KHexBigInt (WithTimeout ctx 30) "eth_newFilter"
         [ArgFilter (mkEthFilter (Filter (info s)) since "latest")] n).1
        = inr (filterID (sub m1)) ∧
      ∀ ctx', ∃ rest,
        rpcCalls (trace (processNewEvents ctx' m1).2) =
          rpcCalls (trace m1) ++
          (WithTimeout ctx' 30, "eth_getFilterLogs",
           [ArgHexBigInt (filterID (sub m1))]) :: rest.
Proof.
  intros Hs.
  assert (Hfresh : filterStale s = true ∧ filteredOnce s = false ∧ filterID s = 0).
  { destruct Hs as [Hnew | Hrestore].
    - destruct (newSubscription_flags sm addr i s Hnew) as [Hst Honce].
      pose proof (newSubscription_filterID sm addr i s Hnew). auto.
    - destruct (restoreSubscription_flags sm i s Hrestore) as [Hst Honce].
      pose proof (restoreSubscription_filterID sm i s Hrestore). auto. }
  destruct Hfresh as (Hst & Honce & Hid).
  split; [exact Hst |]. split; [exact Honce |]. split; [exact Hid |].
  intros ctx n t. split; [| split].
  - destruct (processNewEvents_first_call ctx (mkMachine s n t)) as [rest Hrest].
    cbn [sub trace] in Hrest. rewrite Honce, Hid in Hrest. eauto.
  - apply processNewEvents_keeps_stale. exact Hst.
  - intros since m1 Hrestart.
    rewrite restartFilter_run in Hrestart. cbn zeta in Hrestart.
    cbn [sub node trace] in Hrestart.
    destruct (CallContext KHexBigInt _ _ _ n) as [[err | id] n'] eqn:Hcall;
      [discriminate |].
    injection Hrestart as <-. cbn [sub fst].
    split; [reflexivity |]. split; [reflexivity |]. split; [reflexivity |].
    intros ctx'.
    match goal with
    | |- context [processNewEvents ctx' ?m1] =>
        destruct (processNewEvents_first_call ctx' m1) as [rest Hrest]
    end.
    cbn [sub trace] in Hrest. eauto.
Qed.

End Facts.

(** *** The properties at work on the scripted node *)

#[local] Existing Instances scriptedNode plainBinding plainErrorText pickyProcessing.

(** The sample subscription is what [restoreSubscription] returns for the
    sample info, and [newSubscription] returns one for it too: both are
    stale with filter id 0, and a poll of the restored one goes out for
    filter 0. *)
Lemma constructed_subscription_is_stale_and_polls_unguarded_witness :
  (restoreSubscription sampleManager sampleInfo = inr sampleSubscription ∧
   filterStale sampleSubscription = true ∧ filteredOnce sampleSubscription = false ∧
   filterID sampleSubscription = 0 ∧
   ∃ rest,
     rpcCalls (trace (processNewEvents Background (sampleMachine [ReplyLogs []])).2) =
       rpcCalls [] ++
       (WithTimeout Background 30, "eth_getFilterLogs", [ArgHexBigInt 0]) :: rest) ∧
  match (newSubscription sampleManager None sampleInfo).1.1 with
  | inr s => filterStale s = true ∧ filteredOnce s = false ∧ filterID s = 0
  | inl _ => False
  end.
Proof.
  split.
  - destruct (constructed_subscription_is_stale_and_polls_unguarded (N := list reply)
                sampleManager None sampleInfo sampleSubscription
                (or_intror eq_refl)) as (Hst & Honce & Hid & Hrun).
    split; [reflexivity |]. split; [exact Hst |]. split; [exact Honce |].
    split; [exact Hid |].
    exact (proj1 (Hrun Background [ReplyLogs []] [])).
  - destruct ((newSubscription sampleManager None sampleInfo).1.1)
      as [e | s] eqn:Hnew; [vm_compute in Hnew; discriminate |].
    destruct (constructed_subscription_is_stale_and_polls_unguarded (N := list reply)
                sampleManager None sampleInfo s (or_introl Hnew))
      as (Hst & Honce & Hid & _).
    split; [exact Hst |]. split; [exact Honce | exact Hid].
Defined.

(** C10, as claimed, fails on the sample subscription. It is returned by
    [restoreSubscription], stale, and no [eth_newFilter] has been called for
    it; [processNewEvents] polls all the same, for filter 0, gets an entry
    from the node and hands it to the log processor. *)
Lemma fresh_subscription_is_polled_before_any_install :
  restoreSubscription sampleManager sampleInfo = inr sampleSubscription ∧
  filterStale sampleSubscription = true ∧
  (processNewEvents Background
     (sampleMachine [ReplyLogs [mkLogEntry 100 0 "a"];
                     ReplyHeader (mkBlockHeader 1700000000)])).1 = None ∧
  rpcCalls (trace (processNewEvents Background
     (sampleMachine [ReplyLogs [mkLogEntry 100 0 "a"];
                     ReplyHeader (mkBlockHeader 1700000000)])).2) =
    [(WithTimeout Background 30, "eth_getFilterLogs", [ArgHexBigInt 0]);
     (WithTimeout Background 30, "eth_getBlockByNumber",
      [ArgString "100"; ArgBool false])] ∧
  callsTo "eth_newFilter" (trace (processNewEvents Background
     (sampleMachine [ReplyLogs [mkLogEntry 100 0 "a"];
                     ReplyHeader (mkBlockHeader 1700000000)])).2) = 0%nat ∧
  processing (trace (processNewEvents Background
     (sampleMachine [ReplyLogs [mkLogEntry 100 0 "a"];
                     ReplyHeader (mkBlockHeader 1700000000)])).2) =
    [EvProcessLogEntry "sub1:Changed" (mkLogEntry 100 1700000000 "a") 0 None].
Proof. repeat split. Qed.

(** The sample subscription was created from block 100 and has its
    high-water-mark at 105. Reinstalling from the high-water-mark asks for blocks from 105 on,
    not from the 100 the subscription was created with. *)
Lemma restartFilter_installs_from_since_witness :
  FromBlock (info (sub (restoredAt105 [ReplyHexBigInt 7]))) = "100" ∧
  blockHWM (sub (restoredAt105 [ReplyHexBigInt 7])) = 105 ∧
  ∃ f,
    rpcCalls (trace (restartFilter Background 105 (restoredAt105 [ReplyHexBigInt 7])).2) =
      rpcCalls (trace (restoredAt105 [ReplyHexBigInt 7])) ++
      [(WithTimeout Background 30, "eth_newFilter", [ArgFilter f])] ∧
    f_FromBlock f = 105 ∧
    f_ToBlock f = "latest" ∧
    f_persistedFilter f = Filter (info (sub (restoredAt105 [ReplyHexBigInt 7]))) ∧
    blockHWM (sub (restartFilter Background 105 (restoredAt105 [ReplyHexBigInt 7])).2) =
      blockHWM (sub (restoredAt105 [ReplyHexBigInt 7])) ∧
    (105 = blockHWM (sub (restoredAt105 [ReplyHexBigInt 7])) →
     f_FromBlock f =
       blockHWM (sub (restartFilter Background 105 (restoredAt105 [ReplyHexBigInt 7])).2)) ∧
    filterStale (sub (restartFilter Background 105 (restoredAt105 [ReplyHexBigInt 7])).2)
      = false.
Proof.
  split; [reflexivity |]. split; [reflexivity |].
  apply (restartFilter_installs_from_since Background 105
           (restoredAt105 [ReplyHexBigInt 7])).
  reflexivity.
Defined.

(** Filter 7 has been polled once and the node has forgotten it: the poll
    error comes back, the filter
    is stale and one uninstall was attempted. *)
Lemma poll_failure_marks_stale_iff_filter_not_found_witness :
  let m := polledOnce [ReplyError "filter not found"; ReplyBool false] in
  filterStale (sub m) = false ∧
  (processNewEvents Background m).1 = Some (ExtError "filter not found") ∧
  filterStale (sub (processNewEvents Background m).2) = true ∧
  callsTo "eth_uninstallFilter" (trace (processNewEvents Background m).2) = 1%nat.
Proof.
  intros m.
  pose proof (poll_failure_marks_stale_iff_filter_not_found Background m
                (ExtError "filter not found") [ReplyBool false] eq_refl)
    as (Hr & _ & _ & Hiff).
  destruct (Hiff eq_refl) as [Hstale Hcalls].
  split; [reflexivity |]. split; [exact Hr |].
  split; [apply Hstale; reflexivity |].
  apply Hcalls. reflexivity.
Defined.

(** A batch of three entries whose second one the log processor rejects:
    all three are delivered, in order, and the rejection is logged between
    the second and the third. *)
Lemma failed_entry_does_not_stop_batch_witness :
  let batch := [mkLogEntry 105 0 "a"; mkLogEntry 105 0 "bad"; mkLogEntry 106 0 "c"] in
  let m := polledOnce [ReplyLogs batch; ReplyHeader (mkBlockHeader 1700000000);
                       ReplyError "timeout"] in
  (processNewEvents Background m).1 = None ∧
  processing (trace (processNewEvents Background m).2) =
    [EvProcessLogEntry "sub1:Changed" (mkLogEntry 105 1700000000 "a") 0 None;
     EvProcessLogEntry "sub1:Changed" (mkLogEntry 105 1700000000 "bad") 1
       (Some (ExtError "bad data"));
     EvLog (Logf ErrorLevel "Failed to process event: %s"
              [LError (Some (ExtError "bad data"))]);
     EvProcessLogEntry "sub1:Changed" (mkLogEntry 106 0 "c") 2 None].
Proof.
  intros batch m.
  destruct (failed_entry_does_not_stop_batch Background m batch [ReplyHeader
              (mkBlockHeader 1700000000); ReplyError "timeout"] eq_refl)
    as (done & Hr & _ & _).
  split; [exact Hr | reflexivity].
Defined.

(** The polls of a subscription's life: full fetch after the install,
    incremental after a successful poll, full fetch again after the
    reinstall that follows "filter not found". *)
Lemma poll_method_follows_filteredOnce_witness :
  let m1 := polledOnce [ReplyError "filter not found"; ReplyBool true;
                        ReplyHexBigInt 8; ReplyLogs []] in
  let m2 := (processNewEvents Background m1).2 in
  let m3 := (restartFilter Background (blockHWM (sub m2)) m2).2 in
  let m4 := (processNewEvents Background m3).2 in
  filteredOnce (sub m1) = true ∧ filteredOnce (sub m3) = false ∧
  filteredOnce (sub m4) = true ∧
  List.filter (λ c, negb (String.eqb c "eth_uninstallFilter"))
    ((λ c, c.1.2) <$> rpcCalls (trace m4)) =
    ["eth_newFilter"; "eth_getFilterLogs"; "eth_getFilterChanges";
     "eth_newFilter"; "eth_getFilterLogs"].
Proof.
  intros m1 m2 m3 m4.
  destruct (@poll_method_follows_filteredOnce (list reply) _ _ _ _)
    as (_ & Hok & Hrestart).
  split; [reflexivity |].
  split; [apply (Hrestart Background (blockHWM (sub m2)) m2 m3); reflexivity |].
  split; [apply (Hok Background m3 [] []); reflexivity | reflexivity].
Defined.

(** C5, as claimed, fails on the sample subscription: created from block
    100, it gets 100 back from [setInitialBlockHeight] while its
    high-water-mark stays where it was, at 0. *)
Lemma setInitialBlockHeight_explicit_block_is_not_seeded :
  FromBlock (info (sub (sampleMachine []))) = "100" ∧
  (setInitialBlockHeight Background (sampleMachine [])).1 = inr 100 ∧
  blockHWM (sub (setInitialBlockHeight Background (sampleMachine [])).2) = 0 ∧
  blockHWM (sub (setInitialBlockHeight Background (sampleMachine [])).2) ≠ 100.
Proof. repeat split. discriminate. Qed.

(** With "latest" the block number of the node becomes the
    high-water-mark. *)
Example setInitialBlockHeight_latest :
  let s := mkSubscription
             (mkSubscriptionInfo "" "sub1" "" "" "" "es1" (mkPersistedFilter [] [])
                (Some "Changed") "latest")
             (lp sampleSubscription) "sub1:Changed" 0 false true false false in
  let r := setInitialBlockHeight Background (mkMachine s [ReplyHexBigInt 4711] []) in
  r.1 = inr 4711 ∧ blockHWM (sub r.2) = 4711 ∧
  rpcCalls (trace r.2) = [(WithTimeout Background 30, "eth_blockNumber", [])].
Proof. repeat split. Qed.

(** A block looked up twice costs one call. *)
Example getEventTimestamp_second_lookup_hits :
  let m := sampleMachine [ReplyHeader (mkBlockHeader 1700000000)] in
  let r1 := getEventTimestamp Background (mkLogEntry 105 0 "a") m in
  let r2 := getEventTimestamp Background (mkLogEntry 105 0 "b") r1.2 in
  Timestamp r1.1 = 1700000000 ∧ Timestamp r2.1 = 1700000000 ∧
  length (rpcCalls (trace r2.2)) = 1%nat.
Proof. repeat split. Qed.

(** Even when the node rejects the uninstall, the filter ends up stale and
    the second invocation stays silent. *)
Example markFilterStale_failed_uninstall :
  let m := polledOnce [ReplyError "filter not found"] in
  let m1 := (markFilterStale Background true m).2 in
  let m2 := (markFilterStale Background true m1).2 in
  filterStale (sub m) = false ∧ filterStale (sub m1) = true ∧
  callsTo "eth_uninstallFilter" (trace m2) = 1%nat ∧
  last (trace m1) =
    Some (EvLog (Logf InfoLevel "%s: Uninstalled filter. ok=%t (%s)"
                   [LString "sub1:Changed"; LBool false;
                    LError (Some (ExtError "filter not found"))])).
Proof. repeat split. Qed.

(** The fresh sample subscription is stale; a poll that fails, a reset
    request and an install that the node refuses leave it stale. *)
Lemma stale_until_restartFilter_succeeds_witness :
  let m := sampleMachine [ReplyError "connection refused"] in
  filterStale (sub m) = true ∧
  filterStale (sub (processNewEvents Background m).2) = true ∧
  filterStale (sub (requestReset m).2) = true ∧
  (restartFilter Background 100 m).1 ≠ None ∧
  filterStale (sub (restartFilter Background 100 m).2) = true.
Proof.
  intros m.
  destruct (stale_until_restartFilter_succeeds Background false 100 100 m eq_refl)
    as (Hpoll & _ & Hreset & _ & _ & Hrestart).
  assert (Hfailed : (restartFilter Background 100 m).1 ≠ None) by discriminate.
  split; [reflexivity |]. split; [exact Hpoll |]. split; [exact Hreset |].
  split; [exact Hfailed | exact (Hrestart Hfailed)].
Defined.

(** Two entries of block 105: the header is fetched for the first one
    only. *)
Lemma second_lookup_is_a_hit_witness :
  let m := sampleMachine [ReplyHeader (mkBlockHeader 1700000000)] in
  let r1 := getEventTimestamp Background (mkLogEntry 105 0 "a") m in
  let r2 := getEventTimestamp Background (mkLogEntry 105 0 "b") r1.2 in
  Timestamp r1.1 = 1700000000 ∧
  Timestamp r2.1 = Timestamp r1.1 ∧ trace r2.2 = trace r1.2 ∧ node r2.2 = node r1.2.
Proof.
  intros m r1 r2. split; [reflexivity |].
  apply (second_lookup_is_a_hit Background Background
           (mkLogEntry 105 0 "a") (mkLogEntry 105 0 "b") m eq_refl).
  - cbn. lia.
  - right. exists (mkBlockHeader 1700000000). reflexivity.
Defined.

End SubscriptionFacts.

(** ** The FFCAPI front end: dispatch and responses *)
Module FFCServerDispatch.
Import golang ffcapiconnector.

Section Dispatch.

Context {E R : Type} `{Semver} `{ErrorText} `{RequestTypes} `{@Json R}.

Lemma mapReasonStatus_values (reason : ErrorReason) :
  mapReasonStatus reason = 404 ∨ mapReasonStatus reason = 400 ∨
  mapReasonStatus reason = 500.
Proof. destruct reason; cbn; auto. Qed.

(** [ServeFFCAPI] laid out by the outcome of validation and of the
    handler. *)
Lemma ServeFFCAPI_run (s : ffcServer E R) (ctx : context) (payload : string)
    (w : world E) :
  ServeFFCAPI s ctx payload w =
  let hdr := UnmarshalRequestBase payload in
  let answer (b : resBody R) (st : Z) (w' : world E) :=
    Returns
      (mkResponse
         [("Content-Type", "application/json");
          ("Content-Length", pretty (Z.of_nat (String.length (Marshal (Some b)))))]
         st (Marshal (Some b)), w') in
  match validateHeader s hdr with
  | Panics => Panics
  | Returns (inl err) =>
      answer (ErrorResponse (Error err) ErrorReasonInvalidInputs) 400
        (mkWorld (engine w)
           (log w ++ [Logf ErrorLevel "Request failed: %s" [LError (Some err)]]))
  | Returns (inr handler) =>
      let '(res, reason, err, e) := handler ctx payload (engine w) in
      let called :=
        [Logf TraceLevel "--> %s %s" [LString (RequestType hdr); LString payload];
         Logf TraceLevel "<-- %s %s %v"
           [LString (RequestType hdr); LReason reason; LError err]] in
      match err with
      | None => answer (HandlerResult res) 200 (mkWorld e (log w ++ called))
      | Some er =>
          answer (ErrorResponse (Error er) reason) (mapReasonStatus reason)
            (mkWorld e
               (log w ++ called ++
                [Logf ErrorLevel "Request failed: %s" [LError (Some er)]]))
      end
  end.
Proof.
  unfold ServeFFCAPI. cbn zeta.
  destruct (validateHeader s (UnmarshalRequestBase payload)) as [[err | handler] |];
    [reflexivity | | reflexivity].
  destruct (handler ctx payload _) as [[[res reason] [er |]] e]; cbn;
    unfold logf; cbn; rewrite <- ?app_assoc; reflexivity.
Qed.

(** Every response [ServeFFCAPI] writes carries the two headers, the
    content length being the length of the body written, and one of the
    statuses 200, 400, 404 and 500; the log is only added to. *)
Theorem ServeFFCAPI_response_shape (s : ffcServer E R) (ctx : context)
    (payload : string) (w w' : world E) (resp : response) :
  ServeFFCAPI s ctx payload w = Returns (resp, w') →
  headers resp =
    [("Content-Type", "application/json");
     ("Content-Length", pretty (Z.of_nat (String.length (body resp))))] ∧
  status resp ∈ [200; 400; 404; 500] ∧
  ∃ lines, log w' = log w ++ lines.
Proof.
  rewrite ServeFFCAPI_run. cbn zeta.
  destruct (validateHeader s _) as [[err | handler] |]; [| | discriminate].
  - intros [= <- <-]. cbn. split; [reflexivity |]. split; [set_solver | eauto].
  - destruct (handler ctx payload _) as [[[res reason] [er |]] e];
      intros [= <- <-]; cbn; (split; [reflexivity |]); (split; [| eauto]).
    + destruct (mapReasonStatus_values reason) as [-> | [-> | ->]]; set_solver.
    + set_solver.
Qed.

(** The status is 200 exactly when the header passed validation and the
    handler it selected returned no error. For an accepted header the
    handlers' world is the one the handler left; a handler error is answered
    with the status of its reason and an error body carrying the handler's
    reason, a handler result with that result as the body. *)
Theorem ServeFFCAPI_ok_iff_handler_succeeds (s : ffcServer E R) (ctx : context)
    (payload : string) (w w' : world E) (resp : response) :
  ServeFFCAPI s ctx payload w = Returns (resp, w') →
  (status resp = 200 ↔
   ∃ handler,
     validateHeader s (UnmarshalRequestBase payload) = Returns (inr handler) ∧
     (handler ctx payload (engine w)).1.2 = None) ∧
  (∀ handler,
     validateHeader s (UnmarshalRequestBase payload) = Returns (inr handler) →
     let r := handler ctx payload (engine w) in
     engine w' = r.2 ∧
     match r.1.2 with
     | None => body resp = Marshal (Some (HandlerResult r.1.1.1))
     | Some er =>
         status resp = mapReasonStatus r.1.1.2 ∧
         body resp = Marshal (Some (ErrorResponse (Error er) r.1.1.2))
     end).
Proof.
  rewrite ServeFFCAPI_run. cbn zeta.
  destruct (validateHeader s _) as [[err | handler] |]; [| | discriminate].
  - intros [= <- <-]. cbn. split.
    + split; [discriminate | intros (h & Hh & _); discriminate].
    + intros h Hh. discriminate.
  - destruct (handler ctx payload (engine w)) as [[[res reason] [er |]] e] eqn:Hrun;
      intros [= <- <-]; cbn.
    + split.
      * split.
        -- intros H200.
           destruct (mapReasonStatus_values reason) as [Hs | [Hs | Hs]];
             rewrite Hs in H200; discriminate.
        -- intros (h & [= <-] & Hnone). rewrite Hrun in Hnone. discriminate.
      * intros h [= <-]. rewrite Hrun. cbn. repeat split.
    + split.
      * split; [| reflexivity]. intros _. exists handler.
        rewrite Hrun. split; reflexivity.
      * intros h [= <-]. rewrite Hrun. cbn. repeat split.
Qed.

End Dispatch.

#[local] Existing Instances plainSemver plainErrorText plainRequestTypes plainJson.

(** A handler that fails with "not found" is answered with 404 and its
    message. *)
Lemma ServeFFCAPI_response_shape_witness :
  ∃ resp w',
    ServeFFCAPI (NewFFCServer failingMethods) Background "1.0.0|7e1f|get_receipt"
      (mkWorld 0%nat []) = Returns (resp, w') ∧
    status resp = 404 ∧ body resp = "receipt not available" ∧
    headers resp =
      [("Content-Type", "application/json");
       ("Content-Length", pretty (Z.of_nat (String.length (body resp))))] ∧
    status resp ∈ [200; 400; 404; 500] ∧
    ∃ lines, log w' = log (mkWorld 0%nat []) ++ lines.
Proof.
  eexists _, _. split; [vm_compute; reflexivity |].
  split; [reflexivity |]. split; [reflexivity |].
  eapply (ServeFFCAPI_response_shape (NewFFCServer failingMethods) Background
            "1.0.0|7e1f|get_receipt" (mkWorld 0%nat [])).
  vm_compute. reflexivity.
Defined.

(** An accepted request whose handler succeeds is answered with 200 and
    the handler's result. *)
Lemma ServeFFCAPI_ok_iff_handler_succeeds_witness :
  match ServeFFCAPI (NewFFCServer countingMethods) Background
          "1.0.7|7e1f|exec_query" (mkWorld 0%nat []) with
  | Returns (resp, w') =>
      status resp = 200 ∧ engine w' = 1%nat ∧ body resp = "execQuery"
  | Panics => False
  end.
Proof.
  destruct (ServeFFCAPI (NewFFCServer countingMethods) Background
              "1.0.7|7e1f|exec_query" (mkWorld 0%nat []))
    as [[resp w'] |] eqn:Hrun; [| vm_compute in Hrun; discriminate].
  destruct (ServeFFCAPI_ok_iff_handler_succeeds _ _ _ _ _ _ Hrun) as [H200 Hh].
  split.
  - apply H200. exists (countingHandler "execQuery"). split; reflexivity.
  - exact (Hh (countingHandler "execQuery") eq_refl).
Defined.

End FFCServerDispatch.

(** ** The subscription runtime: construction, teardown and whole cycles *)
Module SubscriptionLifecycle.
Import golang events SubscriptionFacts.

Lemma within30_WithTimeout (ctx : context) : within30 (WithTimeout ctx 30).
Proof.
  unfold within30. cbn. destruct (deadline ctx) as [d |]; eexists; split;
    try reflexivity; lia.
Qed.

Lemma isHeaderLookup_within30 (c : context * string * list rpcArg) :
  isHeaderLookup c → within30 c.1.1.
Proof. intros (-> & _). apply within30_WithTimeout. Qed.

(** [strings.Contains] finds the text wherever it stands. *)
Lemma prefix_append (s t : string) : String.prefix s (s +:+ t) = true.
Proof.
  induction s as [| a s IH]; simpl; [destruct t; reflexivity |].
  destruct (ascii_dec a a) as [_ | Hne]; [exact IH | contradiction].
Qed.

Lemma prefix_inv (s1 s2 : string) :
  String.prefix s1 s2 = true → ∃ t, s2 = s1 +:+ t.
Proof.
  revert s1. induction s2 as [| b s2 IH]; intros [| a s1]; simpl.
  - intros _. exists "". reflexivity.
  - discriminate.
  - intros _. exists (String b s2). reflexivity.
  - destruct (ascii_dec a b) as [-> | Hne]; [| discriminate].
    intros Hp. destruct (IH s1 Hp) as [t ->]. exists t. reflexivity.
Qed.

Lemma Contains_iff (s substr : string) :
  Contains s substr = true ↔ ∃ pre post, s = pre +:+ substr +:+ post.
Proof.
  split.
  - induction s as [| a s IH]; cbn [Contains]; rewrite orb_true_iff.
    + intros [Hp | Hf]; [| discriminate].
      destruct (prefix_inv _ _ Hp) as [t Ht]. exists "", t. exact Ht.
    + intros [Hp | Hc].
      * destruct (prefix_inv _ _ Hp) as [t Ht]. exists "", t. exact Ht.
      * destruct (IH Hc) as (pre & post & ->). exists (String a pre), post.
        reflexivity.
  - intros (pre & post & ->). induction pre as [| a pre IH].
    + change ("" +:+ substr +:+ post) with (substr +:+ post).
      destruct (substr +:+ post) eqn:Hs; cbn [Contains];
        rewrite <- ?Hs, prefix_append; reflexivity.
    + change (String a pre +:+ substr +:+ post)
        with (String a (pre +:+ substr +:+ post)).
      cbn [Contains]. rewrite IH. apply orb_true_r.
Qed.

Section Lifecycle.

Context {N : Type} `{RPCClient N} `{EthBinding} `{ErrorText} `{LogProcessing}.

(** *** Construction *)

(** A subscription that [newSubscription] returns holds the info as the
    function left it: the summary is the address (or "*") and the event
    signature, the name is the one given or else the summary, the filter
    has the given address (or the addresses it had) and exactly one topic,
    the event's id; everything else of the info is as passed in. The event
    is there and has a name, and the log processor starts on the stream of
    the info with a zero high-water-mark. *)
Theorem newSubscription_fills_info (sm : subscriptionManager)
    (addr : option Address) (i : SubscriptionInfo) (s : subscription) :
  (newSubscription sm addr i).1.1 = inr s →
  ∃ ev,
    ABIElementMarshalingToABIEvent (Event i) = inr (Some ev) ∧
    eventName ev ≠ "" ∧
    info s = (newSubscription sm addr i).1.2 ∧
    Summary (info s) =
      from_option AddressString "*" addr +:+ ":" +:+ ABIEventSignature (Some ev) ∧
    Name (info s) = (if String.eqb (Name i) "" then Summary (info s) else Name i) ∧
    Topics (Filter (info s)) = [[eventID ev]] ∧
    Addresses (Filter (info s)) =
      from_option (λ a, [a]) (Addresses (Filter i)) addr ∧
    (TimeSorted (info s), ID (info s), Path (info s), Stream (info s),
     Event (info s), FromBlock (info s)) =
      (TimeSorted i, ID i, Path i, Stream i, Event i, FromBlock i) ∧
    streamByID sm (Stream i) = inr (stream (lp s)) ∧
    blockHWM s = 0 ∧
    logName s = ID i +:+ ":" +:+ ABIEventSignature (Some ev).
Proof.
  unfold newSubscription.
  destruct (streamByID sm (Stream i)) as [err | st]; [discriminate |].
  destruct (ABIElementMarshalingToABIEvent (Event i)) as [err | [ev |]];
    [discriminate | |].
  - destruct addr as [a |]; destruct (String.eqb (Name i) "") eqn:Hname;
      (destruct (String.eqb (eventName ev) "") eqn:Hev; cbn; [discriminate |]);
      intros [= <-]; exists ev; cbn; rewrite ?Hname;
      (split; [reflexivity |]); (split; [intros Hn; rewrite Hn in Hev; discriminate |]);
      repeat split.
  - destruct addr; destruct (String.eqb (Name i) ""); discriminate.
Qed.

(** [newSubscription] fails in three ways. Without the stream, or when the
    event does not convert, the error is passed on and the info is not
    touched. When the event converts to nil or has no name, the error is
    the no-event error, but by then the summary, the defaulted name and the
    address have been written into the caller's info; the topics have
    not. *)
Theorem newSubscription_failures (sm : subscriptionManager)
    (addr : option Address) (i : SubscriptionInfo) (e : error) :
  (newSubscription sm addr i).1.1 = inl e →
  (streamByID sm (Stream i) = inl e ∧ (newSubscription sm addr i).1.2 = i) ∨
  (ABIElementMarshalingToABIEvent (Event i) = inl e ∧
   (newSubscription sm addr i).1.2 = i) ∨
  (∃ event,
     ABIElementMarshalingToABIEvent (Event i) = inr event ∧
     from_option eventName "" event = "" ∧
     e = Errorf EventStreamsSubscribeNoEvent [] ∧
     let i' := (newSubscription sm addr i).1.2 in
     Summary i' = from_option AddressString "*" addr +:+ ":" +:+ ABIEventSignature event ∧
     Name i' = (if String.eqb (Name i) "" then Summary i' else Name i) ∧
     Addresses (Filter i') = from_option (λ a, [a]) (Addresses (Filter i)) addr ∧
     Topics (Filter i') = Topics (Filter i)).
Proof.
  unfold newSubscription.
  destruct (streamByID sm (Stream i)) as [err | st].
  { intros [= <-]. left. split; reflexivity. }
  destruct (ABIElementMarshalingToABIEvent (Event i)) as [err | event].
  { intros [= <-]. right. left. split; reflexivity. }
  intros He. right. right. exists event. split; [reflexivity |].
  destruct event as [ev |].
  - destruct addr as [a |]; destruct (String.eqb (Name i) "") eqn:Hname;
      (destruct (String.eqb (eventName ev) "") eqn:Hev; cbn in He |- *;
       [| discriminate]); apply String.eqb_eq in Hev; injection He as <-;
      rewrite ?Hname; repeat split; assumption.
  - destruct addr as [a |]; destruct (String.eqb (Name i) "") eqn:Hname;
      cbn in He |- *; injection He as <-; rewrite ?Hname; repeat split.
Qed.

(** [restoreSubscription] returns a subscription exactly when the info has
    an id, its stream exists and its event converts; an unnamed or nil
    event is accepted. The subscription holds the info unchanged and a log
    processor with a zero high-water-mark. An empty id is refused before
    anything else is looked at. *)
Theorem restoreSubscription_succeeds_iff (sm : subscriptionManager)
    (i : SubscriptionInfo) :
  ((∃ s, restoreSubscription sm i = inr s) ↔
   ID i ≠ "" ∧ (∃ st, streamByID sm (Stream i) = inr st) ∧
   (∃ event, ABIElementMarshalingToABIEvent (Event i) = inr event)) ∧
  (∀ s, restoreSubscription sm i = inr s →
        info s = i ∧ blockHWM s = 0 ∧ filterID s = 0 ∧
        deleting s = false ∧ resetRequested s = false ∧
        streamByID sm (Stream i) = inr (stream (lp s))) ∧
  (ID i = "" → restoreSubscription sm i = inl (Errorf EventStreamsNoID [])).
Proof.
  unfold restoreSubscription, GetID.
  destruct (String.eqb (ID i) "") eqn:Hid.
  - apply String.eqb_eq in Hid. split; [| split].
    + split; [intros [s Hs]; discriminate | intros (Hne & _); contradiction].
    + intros s Hs. discriminate.
    + reflexivity.
  - apply String.eqb_neq in Hid.
    destruct (streamByID sm (Stream i)) as [err | st].
    { split; [| split].
      - split; [intros [s Hs]; discriminate | intros (_ & [st' Hst] & _); discriminate].
      - intros s Hs. discriminate.
      - intros Hempty. contradiction. }
    destruct (ABIElementMarshalingToABIEvent (Event i)) as [err | event].
    { split; [| split].
      - split; [intros [s Hs]; discriminate | intros (_ & _ & [ev Hev]); discriminate].
      - intros s Hs. discriminate.
      - intros Hempty. contradiction. }
    split; [| split].
    + split; [| eauto]. intros _. eauto.
    + intros s [= <-]. repeat split.
    + intros Hempty. contradiction.
Qed.

(** *** Teardown and reset *)

Lemma unsubscribe_run (ctx : context) (deleting : bool) (m : machine N) :
  unsubscribe ctx deleting m =
  let line := EvLog (Logf InfoLevel "%s: Unsubscribing existing filter (deleting=%t)"
                       [LString (logName (sub m)); LBool deleting]) in
  let m1 := mkMachine (set_resetRequested false (set_deleting deleting (sub m)))
              (node m) (trace m ++ [line]) in
  (None, (markFilterStale ctx true m1).2).
Proof.
  unfold unsubscribe. run.
  destruct (markFilterStale ctx true _) as [[] m2]. reflexivity.
Qed.

(** [unsubscribe] returns no error, whatever the node answers to the
    uninstall. It records the [deleting] argument, clears a pending reset
    request and leaves the filter stale; it calls [eth_uninstallFilter], for
    the current filter and under a 30 second timeout, when the filter was
    not stale, and makes no call otherwise. A second [unsubscribe] makes no
    call. *)
Theorem unsubscribe_never_fails (ctx ctx' : context) (deleting deleting' : bool)
    (m : machine N) :
  let r := unsubscribe ctx deleting m in
  r.1 = None ∧
  sub r.2 = set_filterStale true
              (set_resetRequested false (set_deleting deleting (sub m))) ∧
  rpcCalls (trace r.2) =
    rpcCalls (trace m) ++
    (if filterStale (sub m) then []
     else [(WithTimeout ctx 30, "eth_uninstallFilter",
            [ArgHexBigInt (filterID (sub m))])]) ∧
  rpcCalls (trace (unsubscribe ctx' deleting' r.2).2) = rpcCalls (trace r.2).
Proof.
  intros r. subst r. rewrite !unsubscribe_run. cbn zeta.
  rewrite !markFilterStale_run. cbn [fst snd sub node trace].
  split; [reflexivity |]. split; [reflexivity |]. split.
  - rewrite (rpcCalls_app (trace m ++ _)), (rpcCalls_app (trace m)).
    rewrite staleEvents_calls, <- app_assoc. cbn.
    destruct (filterStale (sub m)); reflexivity.
  - match goal with
    | |- rpcCalls ((?t ++ ?l) ++ ?e) = _ =>
        rewrite (rpcCalls_app (t ++ l)), (rpcCalls_app t)
    end.
    rewrite staleEvents_calls. cbn. rewrite !app_nil_r. reflexivity.
Qed.

(** A reset, as the code performs it with an explicit starting block:
    [requestReset] only raises the flag; [unsubscribe(ctx, false)] lowers it
    and leaves the filter stale; [setInitialBlockHeight] then returns the
    starting block of the info, and a [restartFilter] from it that succeeds
    installs the filter from that block, whatever the high-water-mark is.
    None of the four steps changes the high-water-mark. *)
Theorem reset_restarts_from_directive (ctx : context) (m m3 : machine N) (i : Z) :
  FromBlock (info (sub m)) ≠ "" →
  FromBlock (info (sub m)) ≠ "latest" →
  SetString10 (FromBlock (info (sub m))) = Some i →
  let m1 := (requestReset m).2 in
  let m2 := (unsubscribe ctx false m1).2 in
  restartFilter ctx i m2 = (None, m3) →
  sub m1 = set_resetRequested true (sub m) ∧ rpcCalls (trace m1) = rpcCalls (trace m) ∧
  resetRequested (sub m2) = false ∧ filterStale (sub m2) = true ∧
  setInitialBlockHeight ctx m2 = (inr i, m2) ∧
  (∃ f, last (rpcCalls (trace m3)) =
          Some (WithTimeout ctx 30, "eth_newFilter", [ArgFilter f]) ∧
        f_FromBlock f = i ∧ f_ToBlock f = "latest") ∧
  filterStale (sub m3) = false ∧ filteredOnce (sub m3) = false ∧
  resetRequested (sub m3) = false ∧ deleting (sub m3) = false ∧
  blockHWM (sub m3) = blockHWM (sub m).
Proof.
  intros Hne Hnl Hparse m1 m2 Hrestart. subst m1 m2.
  assert (Hm1 : (requestReset m).2 =
                mkMachine (set_resetRequested true (sub m)) (node m)
                  (trace m ++ [EvLog (Logf InfoLevel "%s: Requested reset from block '%s'"
                     [LString (logName (sub m)); LString (FromBlock (info (sub m)))])])).
  { unfold requestReset. run. reflexivity. }
  rewrite Hm1 in *. clear Hm1.
  rewrite unsubscribe_run in *. cbn zeta in *.
  rewrite markFilterStale_run in *. cbn [fst snd sub node trace] in *.
  split; [reflexivity |].
  split; [rewrite (rpcCalls_app (trace m)); cbn; rewrite app_nil_r; reflexivity |].
  split; [reflexivity |]. split; [reflexivity |].
  split.
  { unfold setInitialBlockHeight, FromBlockLatest. run.
    unfold set_filterStale, set_resetRequested, set_deleting. cbn [info].
    apply String.eqb_neq in Hne, Hnl. rewrite Hne, Hnl, Hparse. reflexivity. }
  rewrite restartFilter_run in Hrestart. cbn zeta in Hrestart.
  destruct (CallContext KHexBigInt _ _ _ _) as [[err | id] n]; [discriminate |].
  injection Hrestart as <-. cbn [sub trace].
  split.
  - exists (mkEthFilter (Filter (info (sub m))) i "latest").
    split; [| split; reflexivity].
    match goal with
    | |- last (rpcCalls (?t ++ ?l)) = _ => rewrite (rpcCalls_app t l)
    end.
    cbn. apply last_snoc.
  - repeat split.
Qed.

(** Resuming from a checkpoint: [setCheckpointBlockHeight(N)] makes [N] the
    high-water-mark without a call and without touching the rest of the
    subscription, and a [restartFilter] from [blockHWM()] that succeeds
    installs the filter from block [N], not from a later block and not from
    the starting block of the info. *)
Theorem checkpoint_resumes_from_HWM (ctx : context) (n : Z) (m m2 : machine N) :
  let m1 := (setCheckpointBlockHeight n m).2 in
  restartFilter ctx (blockHWM (sub m1)) m1 = (None, m2) →
  blockHWM (sub m1) = n ∧ sameButLp (sub m) (sub m1) ∧
  rpcCalls (trace m1) = rpcCalls (trace m) ∧
  (∃ f, last (rpcCalls (trace m2)) =
          Some (WithTimeout ctx 30, "eth_newFilter", [ArgFilter f]) ∧
        f_FromBlock f = n ∧ f_ToBlock f = "latest" ∧
        f_persistedFilter f = Filter (info (sub m))) ∧
  blockHWM (sub m2) = n.
Proof.
  intros m1.
  assert (Hm1 : m1 =
                mkMachine (set_lp (initBlockHWM n (lp (sub m))) (sub m)) (node m)
                  (trace m ++
                   [EvLog (Logf InfoLevel
                      "%s: checkpoint restored block height for event stream: %s"
                      [LString (logName (sub m)); LInt n])])).
  { subst m1. unfold setCheckpointBlockHeight. run. reflexivity. }
  rewrite Hm1. clear m1 Hm1. cbn [sub trace].
  rewrite restartFilter_run. cbn zeta.
  destruct (CallContext KHexBigInt _ _ _ _) as [[err | id] nd]; [discriminate |].
  intros [= <-]. cbn [sub trace].
  split; [reflexivity |]. split; [apply sameButLp_set_lp |].
  split; [rewrite (rpcCalls_app (trace m)); cbn; apply app_nil_r |].
  split; [| reflexivity].
  exists (mkEthFilter (Filter (info (sub m))) n "latest").
  split; [| repeat split].
  match goal with
  | |- last (rpcCalls (?t ++ ?l)) = _ => rewrite (rpcCalls_app t l)
  end.
  cbn. apply last_snoc.
Qed.

(** A [restartFilter] that returns an error made one call, [eth_newFilter],
    and left the subscription exactly as it was, filter id and flags
    included; the error names the method and wraps the client's error. *)
Theorem restartFilter_failure_changes_nothing (ctx : context) (since : Z)
    (m : machine N) (e : error) :
  (restartFilter ctx since m).1 = Some e →
  sub (restartFilter ctx since m).2 = sub m ∧
  (∃ err, e = Errorf RPCCallReturnedError [AString "eth_newFilter"; AError err] ∧
          (CallContext KHexBigInt (WithTimeout ctx 30) "eth_newFilter"
             [ArgFilter (mkEthFilter (Filter (info (sub m))) since "latest")]
             (node m)).1 = inl err) ∧
  rpcCalls (trace (restartFilter ctx since m).2) =
    rpcCalls (trace m) ++
    [(WithTimeout ctx 30, "eth_newFilter",
      [ArgFilter (mkEthFilter (Filter (info (sub m))) since "latest")])].
Proof.
  rewrite restartFilter_run. cbn zeta.
  destruct (CallContext KHexBigInt _ _ _ (node m)) as [[err | id] n]; cbn;
    [| discriminate].
  intros [= <-]. split; [reflexivity |]. split; [eauto |].
  rewrite (rpcCalls_app (trace m)). reflexivity.
Qed.

(** *** Polling: calls and deadlines *)

Lemma getEventTimestamp_calls (l : logEntry) (m : machine N) :
  ∃ delta,
    trace (getEventTimestamp Background l m).2 = trace m ++ delta ∧
    Forall isHeaderLookup (rpcCalls delta) ∧ (length (rpcCalls delta) ≤ 1)%nat.
Proof.
  rewrite getEventTimestamp_run. cbn zeta.
  destruct (lookupEntry _ (evictList (cacheOf m))) as [ts |].
  - exists []. cbn. rewrite app_nil_r. repeat split; [constructor | lia].
  - destruct (CallContext KHeader _ _ _ (node m)) as [[err | hdr] n];
      eexists; cbn; (split; [reflexivity |]); (split; [| cbn; lia]);
      repeat constructor; eauto.
Qed.

Lemma loopBody_calls (idx : Z) (l : logEntry) (m : machine N) :
  ∃ delta,
    trace (loopBody idx l m).2 = trace m ++ delta ∧
    Forall isHeaderLookup (rpcCalls delta) ∧ (length (rpcCalls delta) ≤ 1)%nat.
Proof.
  unfold loopBody. run.
  set (enrich := (if Timestamps (spec (stream (lp (sub m))))
                  then getEventTimestamp Background l
                  else λ m0, (l, m0)) m).
  assert (∃ delta, trace enrich.2 = trace m ++ delta ∧
                   Forall isHeaderLookup (rpcCalls delta) ∧
                   (length (rpcCalls delta) ≤ 1)%nat)
    as (d1 & Htr & Hall & Hlen).
  { subst enrich. destruct (Timestamps _).
    - apply getEventTimestamp_calls.
    - exists []. cbn. rewrite app_nil_r. repeat split; [constructor | lia]. }
  destruct enrich as [l' m1]. cbn [fst snd] in *.
  destruct (processLogEntry (logName (sub m)) l' idx (lp (sub m1))) as [r lp'].
  exists (d1 ++ deliveryEvents (logName (sub m)) idx (l', r)).
  assert (Hnone : rpcCalls (deliveryEvents (logName (sub m)) idx (l', r)) = []).
  { destruct r; reflexivity. }
  rewrite rpcCalls_app, Hnone, app_nil_r.
  split; [| split; assumption].
  destruct r as [err |]; cbn [fst snd sub trace]; rewrite Htr, <- !app_assoc;
    reflexivity.
Qed.

Lemma rangeLogs_calls (logs : list logEntry) (idx : Z) (m : machine N) :
  ∃ delta,
    trace (rangeLogs idx logs m).2 = trace m ++ delta ∧
    Forall isHeaderLookup (rpcCalls delta) ∧
    (length (rpcCalls delta) ≤ length logs)%nat.
Proof.
  revert idx m. induction logs as [| l logs IH]; intros idx m.
  - exists []. cbn. rewrite app_nil_r. repeat split; [constructor | lia].
  - cbn [rangeLogs]. run.
    destruct (loopBody_calls idx l m) as (d1 & Htr1 & Hall1 & Hlen1).
    destruct (loopBody idx l m) as [[] m1]. cbn [snd] in *.
    destruct (IH (idx + 1) m1) as (d2 & Htr2 & Hall2 & Hlen2).
    exists (d1 ++ d2). rewrite Htr2, Htr1, <- app_assoc, rpcCalls_app.
    split; [reflexivity |]. split; [apply Forall_app_2; assumption |].
    rewrite length_app. cbn [length]. lia.
Qed.

(** A poll that succeeds makes the poll call and then at most one call per
    entry of the batch, each of them a block header look-up by block number
    under a deadline of its own: 30 seconds from the background context,
    whatever context [processNewEvents] was given. *)
Theorem successful_poll_calls (ctx : context) (m : machine N)
    (logs : list logEntry) (n : N) :
  CallContext KLogs (WithTimeout ctx 30)
    (if filteredOnce (sub m) then "eth_getFilterChanges" else "eth_getFilterLogs")
    [ArgHexBigInt (filterID (sub m))] (node m) = (inr logs, n) →
  ∃ lookups,
    rpcCalls (trace (processNewEvents ctx m).2) =
      rpcCalls (trace m) ++
      (WithTimeout ctx 30,
       if filteredOnce (sub m) then "eth_getFilterChanges" else "eth_getFilterLogs",
       [ArgHexBigInt (filterID (sub m))]) :: lookups ∧
    Forall isHeaderLookup lookups ∧
    (length lookups ≤ length logs)%nat ∧
    Forall (λ c, deadline c.1.1 = Some 30) lookups.
Proof.
  intros Hpoll. rewrite processNewEvents_run. cbn zeta. rewrite Hpoll.
  cbn [snd trace].
  match goal with
  | |- context [rangeLogs 0 logs ?m1] =>
      destruct (rangeLogs_calls logs 0 m1) as (delta & Htr & Hall & Hlen)
  end.
  rewrite Htr. cbn [trace].
  exists (rpcCalls delta).
  rewrite (rpcCalls_app (trace m ++ _)), (rpcCalls_app (trace m)), <- app_assoc.
  split.
  - f_equal. cbn. destruct (length logs); reflexivity.
  - split; [exact Hall |]. split; [exact Hlen |].
    eapply Forall_impl; [exact Hall |]. intros c (-> & _). reflexivity.
Qed.

(** A poll that succeeds with an empty batch did nothing but poll: one
    call, no line logged, and [filteredOnce] set on a subscription that is
    otherwise unchanged. *)
Theorem empty_batch_only_sets_filteredOnce (ctx : context) (m : machine N) (n : N) :
  CallContext KLogs (WithTimeout ctx 30)
    (if filteredOnce (sub m) then "eth_getFilterChanges" else "eth_getFilterLogs")
    [ArgHexBigInt (filterID (sub m))] (node m) = (inr [], n) →
  processNewEvents ctx m =
  (None,
   mkMachine (set_filteredOnce true (sub m)) n
     (trace m ++
      [EvRPC (WithTimeout ctx 30)
         (if filteredOnce (sub m) then "eth_getFilterChanges" else "eth_getFilterLogs")
         [ArgHexBigInt (filterID (sub m))]])).
Proof.
  intros Hpoll. rewrite processNewEvents_run. cbn zeta. rewrite Hpoll. reflexivity.
Qed.

(** No method of the subscription calls the node without a deadline: every
    call that [setInitialBlockHeight], [restartFilter], [getEventTimestamp],
    [markFilterStale], [unsubscribe] or [processNewEvents] adds to the trace
    is made under a context whose deadline is at most 30 seconds away, even
    when the caller's context has none. *)
Theorem every_call_has_a_deadline (ctx : context) (m : machine N)
    (since : Z) (l : logEntry) (b : bool) :
  let bounded (m' : machine N) :=
    ∃ delta, trace m' = trace m ++ delta ∧
             Forall (λ c, within30 c.1.1) (rpcCalls delta) in
  bounded (setInitialBlockHeight ctx m).2 ∧
  bounded (restartFilter ctx since m).2 ∧
  bounded (getEventTimestamp ctx l m).2 ∧
  bounded (markFilterStale ctx b m).2 ∧
  bounded (unsubscribe ctx b m).2 ∧
  bounded (processNewEvents ctx m).2.
Proof.
  intros bounded. subst bounded. cbn beta.
  assert (Hstale : ∀ c (b0 : bool) (m0 : machine N),
            Forall (λ c0, within30 c0.1.1) (rpcCalls (staleEvents c b0 m0))).
  { intros c b0 m0. rewrite staleEvents_calls.
    destruct (b0 && negb _); repeat constructor. apply within30_WithTimeout. }
  split; [| split; [| split; [| split; [| split]]]].
  - unfold setInitialBlockHeight. run.
    destruct (negb _ && negb _).
    + destruct (SetString10 _); exists []; cbn; rewrite app_nil_r;
        split; try reflexivity; constructor.
    + destruct (CallContext KHexBigInt _ _ _ (node m)) as [[err | h] n]; cbn;
        rewrite <- ?app_assoc; eexists; (split; [reflexivity |]);
        repeat constructor; apply within30_WithTimeout.
  - rewrite restartFilter_run. cbn zeta.
    destruct (CallContext KHexBigInt _ _ _ (node m)) as [[err | id] n]; cbn;
      eexists; (split; [reflexivity |]);
      repeat constructor; apply within30_WithTimeout.
  - rewrite getEventTimestamp_run. cbn zeta.
    destruct (lookupEntry _ (evictList (cacheOf m))) as [ts |].
    + exists []. cbn. rewrite app_nil_r. split; [reflexivity | constructor].
    + destruct (CallContext KHeader _ _ _ (node m)) as [[err | hdr] n]; cbn;
        eexists; (split; [reflexivity |]);
        repeat constructor; apply within30_WithTimeout.
  - rewrite markFilterStale_run. cbn [snd trace].
    eexists. split; [reflexivity | apply Hstale].
  - rewrite unsubscribe_run. cbn zeta. rewrite markFilterStale_run.
    cbn [snd trace]. rewrite <- app_assoc.
    eexists. split; [reflexivity |].
    rewrite rpcCalls_app. apply Forall_app_2; [constructor | apply Hstale].
  - rewrite processNewEvents_run. cbn zeta.
    destruct (CallContext KLogs _ _ _ (node m)) as [[err | logs] n].
    + destruct (Contains (Error err) "filter not found").
      * rewrite markFilterStale_run. cbn [snd trace]. rewrite <- app_assoc.
        eexists. split; [reflexivity |].
        rewrite rpcCalls_app. apply Forall_app_2; [| apply Hstale].
        repeat constructor. apply within30_WithTimeout.
      * cbn [snd trace]. eexists. split; [reflexivity |].
        repeat constructor. apply within30_WithTimeout.
    + cbn [snd trace].
      match goal with
      | |- context [rangeLogs 0 logs ?m1] =>
          destruct (rangeLogs_calls logs 0 m1) as (delta & Htr & Hall & _)
      end.
      rewrite Htr. cbn [trace]. rewrite <- app_assoc.
      eexists. split; [reflexivity |].
      rewrite rpcCalls_app. apply Forall_app_2.
      * cbn. constructor; [apply within30_WithTimeout |].
        destruct (length logs); constructor.
      * eapply Forall_impl; [exact Hall |]. apply isHeaderLookup_within30.
Qed.

(** *** Polling: what the error says, and streams without timestamps *)

(** The classification of a poll error looks at its text only, and for the
    words anywhere in it: after a failed poll whose error reads
    [pre ++ "filter not found" ++ post], whatever [pre] and [post] are, the
    filter is stale; and a filter that was not stale before a failed poll
    and is stale after it had an error of that form. *)
Theorem stale_wherever_the_words_stand (ctx : context) (m : machine N)
    (err : error) (n : N) :
  CallContext KLogs (WithTimeout ctx 30)
    (if filteredOnce (sub m) then "eth_getFilterChanges" else "eth_getFilterLogs")
    [ArgHexBigInt (filterID (sub m))] (node m) = (inl err, n) →
  (∀ pre post, Error err = pre +:+ "filter not found" +:+ post →
               filterStale (sub (processNewEvents ctx m).2) = true) ∧
  (filterStale (sub m) = false →
   filterStale (sub (processNewEvents ctx m).2) = true →
   ∃ pre post, Error err = pre +:+ "filter not found" +:+ post).
Proof.
  intros Hpoll. rewrite processNewEvents_run. cbn zeta. rewrite Hpoll. split.
  - intros pre post Htext.
    assert (Hc : Contains (Error err) "filter not found" = true).
    { apply Contains_iff. eauto. }
    rewrite Hc, markFilterStale_run. reflexivity.
  - intros Hfresh.
    destruct (Contains (Error err) "filter not found") eqn:Hc.
    + intros _. apply Contains_iff. exact Hc.
    + cbn. rewrite Hfresh. discriminate.
Qed.

Lemma loopBody_plain (idx : Z) (l : logEntry) (m : machine N) :
  Timestamps (spec (stream (lp (sub m)))) = false →
  loopBody idx l m =
  let r := processLogEntry (logName (sub m)) l idx (lp (sub m)) in
  (tt, mkMachine (set_lp r.2 (sub m)) (node m)
         (trace m ++ deliveryEvents (logName (sub m)) idx (l, r.1))).
Proof.
  intros Hoff. unfold loopBody. run. rewrite Hoff.
  destruct (processLogEntry (logName (sub m)) l idx (lp (sub m))) as [[err |] lp'];
    cbn; rewrite <- ?app_assoc, ?app_nil_r; reflexivity.
Qed.

Lemma rangeLogs_plain (logs : list logEntry) (idx : Z) (m : machine N) :
  (∀ subInfo e k lp0,
     Timestamps (spec (stream (processLogEntry subInfo e k lp0).2)) =
     Timestamps (spec (stream lp0))) →
  Timestamps (spec (stream (lp (sub m)))) = false →
  ∃ done,
    done.*1 = logs ∧
    trace (rangeLogs idx logs m).2 =
      trace m ++
      concat (imap (λ k, deliveryEvents (logName (sub m)) (idx + Z.of_nat k)) done) ∧
    node (rangeLogs idx logs m).2 = node m.
Proof.
  intros Hframe. revert idx m. induction logs as [| l logs IH]; intros idx m Hoff.
  - exists []. cbn. rewrite app_nil_r. repeat split.
  - cbn [rangeLogs]. run. rewrite (loopBody_plain idx l m Hoff).
    cbv beta iota zeta.
    set (r := processLogEntry (logName (sub m)) l idx (lp (sub m))).
    match goal with
    | |- context [rangeLogs (idx + 1) logs ?m1] =>
        destruct (IH (idx + 1) m1) as (done & Hdone & Htr & Hnode)
    end.
    { cbn. subst r. rewrite Hframe. exact Hoff. }
    exists ((l, r.1) :: done). cbn [fmap list_fmap fst]. rewrite Hdone.
    split; [reflexivity |].
    rewrite Htr, Hnode. cbn [trace node sub logName set_lp].
    split; [| reflexivity].
    rewrite <- app_assoc, imap_cons. cbn [concat]. rewrite Z.add_0_r.
    f_equal. f_equal. f_equal. apply imap_ext. intros k x _. cbn. f_equal. lia.
Qed.

(** On a stream that does not ask for timestamps (and with a log processor
    that does not switch them on), a poll that succeeds makes no call but
    the poll, and hands every entry to the log processor exactly as the node
    sent it, in order, numbered from 0; everything it adds to the trace
    after the poll is those deliveries. *)
Theorem poll_without_timestamps (ctx : context) (m : machine N)
    (logs : list logEntry) (n : N) :
  (∀ subInfo e k lp0,
     Timestamps (spec (stream (processLogEntry subInfo e k lp0).2)) =
     Timestamps (spec (stream lp0))) →
  Timestamps (spec (stream (lp (sub m)))) = false →
  CallContext KLogs (WithTimeout ctx 30)
    (if filteredOnce (sub m) then "eth_getFilterChanges" else "eth_getFilterLogs")
    [ArgHexBigInt (filterID (sub m))] (node m) = (inr logs, n) →
  ∃ done : list (logEntry * option error),
    done.*1 = logs ∧
    processing (trace (processNewEvents ctx m).2) =
      processing (trace m) ++
      concat (imap (λ k, deliveryEvents (logName (sub m)) (Z.of_nat k)) done) ∧
    rpcCalls (trace (processNewEvents ctx m).2) =
      rpcCalls (trace m) ++
      [(WithTimeout ctx 30,
        if filteredOnce (sub m) then "eth_getFilterChanges" else "eth_getFilterLogs",
        [ArgHexBigInt (filterID (sub m))])] ∧
    node (processNewEvents ctx m).2 = n.
Proof.
  intros Hframe Hoff Hpoll. rewrite processNewEvents_run. cbn zeta. rewrite Hpoll.
  cbn [snd trace node].
  match goal with
  | |- context [rangeLogs 0 logs ?m1] =>
      destruct (rangeLogs_plain logs 0 m1 Hframe Hoff) as (done & Hdone & Htr & Hnode)
  end.
  exists done. split; [exact Hdone |].
  rewrite Htr, Hnode. cbn [trace node sub].
  assert (Hcalls : ∀ name ds,
            rpcCalls (concat (imap (λ k, deliveryEvents name (0 + Z.of_nat k)) ds)) = []).
  { intros name ds. generalize 0. induction ds as [| d ds IHd]; intros z; [reflexivity |].
    rewrite imap_cons. cbn [concat]. rewrite rpcCalls_app.
    replace (rpcCalls (deliveryEvents name (z + Z.of_nat 0) d)) with
      (@nil (context * string * list rpcArg)) by (destruct d as [? []]; reflexivity).
    cbn [app]. erewrite imap_ext; [apply (IHd (z + 1)) |].
    intros k x _. cbn. f_equal. lia. }
  assert (Hproc : ∀ name ds,
            processing (concat (imap (λ k, deliveryEvents name (0 + Z.of_nat k)) ds)) =
            concat (imap (λ k, deliveryEvents name (0 + Z.of_nat k)) ds)).
  { intros name ds. generalize 0. induction ds as [| d ds IHd]; intros z; [reflexivity |].
    rewrite imap_cons. cbn [concat]. rewrite processing_app.
    replace (processing (deliveryEvents name (z + Z.of_nat 0) d)) with
      (deliveryEvents name (z + Z.of_nat 0) d) by (destruct d as [? []]; reflexivity).
    f_equal. erewrite imap_ext; [apply (IHd (z + 1)) |].
    intros k x _. cbn. f_equal. lia. }
  split; [| split; [| reflexivity]].
  - rewrite (processing_app (trace m ++ _)), (processing_app (trace m)), Hproc.
    rewrite <- app_assoc. f_equal.
    replace (processing _) with (@nil event_) by (destruct (length logs); reflexivity).
    reflexivity.
  - rewrite (rpcCalls_app (trace m ++ _)), (rpcCalls_app (trace m)), Hcalls.
    rewrite app_nil_r. f_equal. cbn. destruct (length logs); reflexivity.
Qed.

End Lifecycle.

(** *** The properties at work on the scripted node *)

#[local] Existing Instances scriptedNode plainBinding plainErrorText pickyProcessing.

(** The sample info, subscribed for one contract address: summary and name
    are made of the address and the event, the filter gets the address and
    the event's topic. *)
Lemma newSubscription_fills_info_witness :
  match (newSubscription sampleManager (Some [Byte.x2a]) sampleInfo).1.1 with
  | inr s =>
      Summary (info s) = "0x:Changed" ∧ Name (info s) = "0x:Changed" ∧
      Addresses (Filter (info s)) = [[Byte.x2a]] ∧
      Topics (Filter (info s)) = [[[]]] ∧ FromBlock (info s) = "100"
  | inl _ => False
  end.
Proof.
  destruct ((newSubscription sampleManager (Some [Byte.x2a]) sampleInfo).1.1)
    as [e | s] eqn:Hnew; [vm_compute in Hnew; discriminate |].
  destruct (newSubscription_fills_info _ _ _ _ Hnew)
    as (ev & Hev & _ & _ & Hsum & Hname & Htop & Haddr & Hrest & _).
  injection Hev as <-. injection Hrest as _ _ _ _ _ Hfrom.
  rewrite Hname, Hsum, Htop, Haddr, Hfrom. repeat split.
Defined.

(** An event without a name: [newSubscription] refuses it, after writing
    the summary and the name into the info. *)
Lemma newSubscription_failures_witness :
  (newSubscription sampleManager None unnamedInfo).1.1
    = inl (Errorf EventStreamsSubscribeNoEvent []) ∧
  Summary (newSubscription sampleManager None unnamedInfo).1.2 = "*:" ∧
  Name (newSubscription sampleManager None unnamedInfo).1.2 = "*:" ∧
  Topics (Filter (newSubscription sampleManager None unnamedInfo).1.2) = [].
Proof.
  split; [reflexivity |].
  destruct (newSubscription_failures sampleManager None unnamedInfo
              (Errorf EventStreamsSubscribeNoEvent []) eq_refl)
    as [[Hst _] | [[Hev _] | (event & Hev & _ & _ & Hsum & Hname & _ & Htop)]];
    [discriminate Hst | discriminate Hev |].
  injection Hev as <-. cbn zeta in *.
  rewrite Hname, Hsum, Htop. repeat split.
Defined.

(** The same unnamed event is no obstacle to [restoreSubscription]. *)
Lemma restoreSubscription_succeeds_iff_witness :
  ∃ s, restoreSubscription sampleManager unnamedInfo = inr s.
Proof.
  apply (proj1 (restoreSubscription_succeeds_iff sampleManager unnamedInfo)).
  split; [discriminate |]. split; eexists; reflexivity.
Defined.

(** A reset of the polled sample subscription, whose info says block 100
    while its high-water-mark is 105: the new filter starts at 100. *)
Lemma reset_restarts_from_directive_witness :
  let m := polledOnce [ReplyBool true; ReplyHexBigInt 9] in
  let m2 := (unsubscribe Background false (requestReset m).2).2 in
  let m3 := (restartFilter Background 100 m2).2 in
  blockHWM (sub m) = 105 ∧
  (∃ f, last (rpcCalls (trace m3)) =
          Some (WithTimeout Background 30, "eth_newFilter", [ArgFilter f]) ∧
        f_FromBlock f = 100 ∧ f_ToBlock f = "latest") ∧
  filterID (sub m3) = 9 ∧ blockHWM (sub m3) = 105.
Proof.
  intros m m2 m3.
  destruct (reset_restarts_from_directive Background m m3 100)
    as (_ & _ & _ & _ & _ & Hf & _ & _ & _ & _ & Hhwm);
    [intros Heq; vm_compute in Heq; discriminate
    | intros Heq; vm_compute in Heq; discriminate
    | vm_compute; reflexivity
    | vm_compute; reflexivity |].
  split; [vm_compute; reflexivity |]. split; [exact Hf |].
  split; [vm_compute; reflexivity | exact Hhwm].
Defined.

(** The sample subscription resumed from a checkpoint at block 105. *)
Lemma checkpoint_resumes_from_HWM_witness :
  let m1 := (setCheckpointBlockHeight 105 (sampleMachine [ReplyHexBigInt 7])).2 in
  let m2 := (restartFilter Background (blockHWM (sub m1)) m1).2 in
  FromBlock (info (sub m1)) = "100" ∧ blockHWM (sub m1) = 105 ∧
  (∃ f, last (rpcCalls (trace m2)) =
          Some (WithTimeout Background 30, "eth_newFilter", [ArgFilter f]) ∧
        f_FromBlock f = 105 ∧ f_ToBlock f = "latest" ∧
        f_persistedFilter f = Filter (info (sub (sampleMachine [ReplyHexBigInt 7])))) ∧
  blockHWM (sub m2) = 105.
Proof.
  intros m1 m2.
  assert (Hrestart : restartFilter Background (blockHWM (sub m1)) m1 = (None, m2))
    by (vm_compute; reflexivity).
  destruct (checkpoint_resumes_from_HWM Background 105
              (sampleMachine [ReplyHexBigInt 7]) m2 Hrestart)
    as (Hhwm & _ & _ & Hf & Hhwm2).
  split; [reflexivity |]. split; [exact Hhwm |]. split; [exact Hf | exact Hhwm2].
Defined.

(** The node refuses the install: the subscription is as before, still
    stale and without a filter id. *)
Lemma restartFilter_failure_changes_nothing_witness :
  let m := sampleMachine [ReplyError "connection refused"] in
  (restartFilter Background 100 m).1 =
    Some (Errorf RPCCallReturnedError
            [AString "eth_newFilter"; AError (ExtError "connection refused")]) ∧
  sub (restartFilter Background 100 m).2 = sub m ∧
  filterStale (sub (restartFilter Background 100 m).2) = true.
Proof.
  intros m.
  assert (Hfail : (restartFilter Background 100 m).1 =
                  Some (Errorf RPCCallReturnedError
                          [AString "eth_newFilter";
                           AError (ExtError "connection refused")]))
    by (vm_compute; reflexivity).
  destruct (restartFilter_failure_changes_nothing Background 100 m _ Hfail)
    as (Hsub & _ & _).
  split; [reflexivity |]. split; [exact Hsub |]. rewrite Hsub. reflexivity.
Defined.

(** Three entries of two blocks on a stream with timestamps: the poll and
    two header look-ups (block 105 is looked up once and then cached). *)
Lemma successful_poll_calls_witness :
  let batch := [mkLogEntry 105 0 "a"; mkLogEntry 105 0 "b"; mkLogEntry 106 0 "c"] in
  let m := polledOnce [ReplyLogs batch; ReplyHeader (mkBlockHeader 1700000000);
                       ReplyHeader (mkBlockHeader 1700000012)] in
  ∃ lookups,
    rpcCalls (trace (processNewEvents Background m).2) =
      rpcCalls (trace m) ++
      (WithTimeout Background 30, "eth_getFilterChanges", [ArgHexBigInt 7]) :: lookups ∧
    Forall isHeaderLookup lookups ∧ (length lookups ≤ 3)%nat ∧
    Forall (λ c, deadline c.1.1 = Some 30) lookups ∧
    length lookups = 2%nat.
Proof.
  intros batch m.
  destruct (successful_poll_calls Background m batch [ReplyHeader
              (mkBlockHeader 1700000000); ReplyHeader (mkBlockHeader 1700000012)]
              eq_refl) as (lookups & Hcalls & Hall & Hlen & Hdl).
  exists lookups. split; [exact Hcalls |]. split; [exact Hall |].
  split; [exact Hlen |]. split; [exact Hdl |].
  apply (f_equal (@length _)) in Hcalls. vm_compute in Hcalls.
  injection Hcalls as Hcalls. symmetry. exact Hcalls.
Defined.

(** A steady-state poll that brings nothing. *)
Lemma empty_batch_only_sets_filteredOnce_witness :
  let m := polledOnce [ReplyLogs []] in
  processNewEvents Background m =
  (None,
   mkMachine (set_filteredOnce true (sub m)) []
     (trace m ++
      [EvRPC (WithTimeout Background 30) "eth_getFilterChanges" [ArgHexBigInt 7]])).
Proof.
  intros m. apply (empty_batch_only_sets_filteredOnce Background m []). reflexivity.
Defined.

(** An error that wraps the words marks the filter stale; the same words in
    capitals do not. *)
Lemma stale_wherever_the_words_stand_witness :
  let m := polledOnce [ReplyError "rpc error: filter not found (id 7)"] in
  let m' := polledOnce [ReplyError "Filter Not Found"] in
  filterStale (sub m) = false ∧
  filterStale (sub (processNewEvents Background m).2) = true ∧
  filterStale (sub (processNewEvents Background m').2) = false.
Proof.
  intros m m'.
  destruct (stale_wherever_the_words_stand Background m
              (ExtError "rpc error: filter not found (id 7)") [] eq_refl)
    as [Hstale _].
  split; [reflexivity |]. split; [| reflexivity].
  apply (Hstale "rpc error: " " (id 7)"). reflexivity.
Defined.

(** Two entries on a stream without timestamps: they reach the log
    processor as sent, and the poll is the only call. *)
Lemma poll_without_timestamps_witness :
  let batch := [mkLogEntry 105 0 "a"; mkLogEntry 106 0 "bad"] in
  let m := plainMachine [ReplyLogs batch] in
  ∃ done : list (logEntry * option error),
    done.*1 = batch ∧
    processing (trace (processNewEvents Background m).2) =
      processing (trace m) ++
      concat (imap (λ k, deliveryEvents (logName (sub m)) (Z.of_nat k)) done) ∧
    rpcCalls (trace (processNewEvents Background m).2) =
      rpcCalls (trace m) ++
      [(WithTimeout Background 30, "eth_getFilterChanges", [ArgHexBigInt 7])] ∧
    node (processNewEvents Background m).2 = [].
Proof.
  intros batch m.
  apply (poll_without_timestamps Background m batch []).
  - intros subInfo e k lp0. reflexivity.
  - reflexivity.
  - reflexivity.
Defined.

End SubscriptionLifecycle.

(** ** The legacy key-value store: reading it through, and the store itself *)
Module KVStoreIteration.
Import golang kldevents.

(** From position [p] on, the loop reads the pairs after [p], in order, and
    leaves the iterator past the last pair. *)
Lemma drain_from (kvs : list (bytes * bytes)) (fuel : nat) (p : Z) :
  -1 ≤ p ≤ Z.of_nat (length kvs) →
  Z.of_nat (length kvs) - p ≤ Z.of_nat fuel →
  drain fuel (mkLevelDBKeyIterator (mkDbIter kvs p false)) =
  (asRead <$> drop (Z.to_nat (p + 1)) kvs,
   mkLevelDBKeyIterator (mkDbIter kvs (Z.of_nat (length kvs)) false)).
Proof.
  revert p. induction fuel as [| fuel IH]; intros p Hp Hfuel.
  - assert (p = Z.of_nat (length kvs)) as -> by lia.
    cbn [drain]. rewrite drop_ge by lia. reflexivity.
  - cbn [drain Next levelDBKeyIterator_kvIterator iNext dbIter_Iterator i].
    unfold dbIter_Next. cbn [released pairs pos].
    destruct (Z.ltb_spec (Z.min (p + 1) (Z.of_nat (length kvs)))
                (Z.of_nat (length kvs))) as [Hlt | Hge].
    + rewrite Z.min_l by lia. rewrite (IH (p + 1)) by lia.
      destruct (lookup_lt_is_Some_2 kvs (Z.to_nat (p + 1))) as [x Hx]; [lia |].
      rewrite (drop_S _ _ _ Hx). cbn [fmap list_fmap].
      replace (Z.to_nat (p + 1 + 1)) with (S (Z.to_nat (p + 1))) by lia.
      f_equal. f_equal.
      unfold asRead. cbn. unfold dbIter_current. cbn [released pos pairs].
      destruct (Z.ltb_spec (p + 1) 0) as [Hneg | _]; [lia |].
      rewrite Hx. reflexivity.
    + rewrite Z.min_r by lia. rewrite drop_ge by lia. reflexivity.
Qed.

(** A caller that opens an iterator and loops on [Next], reading [Key] and
    [Value] each turn, sees every pair of the database once, in the order
    the database holds them, with the key turned into a string; the loop
    ends by itself after the last pair, and giving it more turns changes
    nothing. *)
Theorem iteration_reads_every_pair (kvs : list (bytes * bytes)) (fuel : nat) :
  (length kvs < fuel)%nat →
  (drain fuel (NewIterator kvs)).1 = asRead <$> kvs ∧
  (Next (drain fuel (NewIterator kvs)).2).1 = false.
Proof.
  intros Hfuel. unfold NewIterator.
  rewrite drain_from by lia. cbn [fst snd]. split; [reflexivity |].
  cbn. unfold dbIter_Next. cbn.
  rewrite Z.min_r by lia. apply Z.ltb_irrefl.
Qed.

(** What [Release] costs a caller. Called on a fresh iterator, before the
    loop, it makes the loop miss the first pair and read the rest. Called
    after the loop has run to its end, as a deferred call would be, it
    changes nothing: the iterator is past the last pair and stays there. *)
Theorem Release_before_loop_loses_a_pair (kvs : list (bytes * bytes))
    (fuel : nat) :
  (length kvs < fuel)%nat →
  (drain fuel (Release (NewIterator kvs))).1 = asRead <$> tail kvs ∧
  Release (drain fuel (NewIterator kvs)).2 = (drain fuel (NewIterator kvs)).2.
Proof.
  intros Hfuel. split.
  - unfold NewIterator. cbn [Release levelDBKeyIterator_kvIterator iNext
                              dbIter_Iterator i].
    unfold dbIter_Next. cbn [released pairs pos].
    destruct kvs as [| x kvs].
    + cbn. destruct fuel; [lia |]. reflexivity.
    + rewrite Z.min_l by (cbn [length]; lia).
      rewrite drain_from by (cbn [length] in *; lia). reflexivity.
  - unfold NewIterator. rewrite drain_from by lia. cbn.
    unfold dbIter_Next. cbn. rewrite Z.min_r by lia. reflexivity.
Qed.

Lemma byte_to_N_inj (x y : Byte.byte) : Byte.to_N x = Byte.to_N y → x = y.
Proof.
  intros Heq. pose proof (Byte.of_to_N x) as Hx. rewrite Heq, Byte.of_to_N in Hx.
  congruence.
Qed.

Lemma bytesCompare_eq (a b : bytes) : bytesCompare a b = Eq ↔ a = b.
Proof.
  revert b. induction a as [| x a IH]; intros [| y b]; cbn; try (split; discriminate).
  - split; reflexivity.
  - destruct (N.compare_spec (Byte.to_N x) (Byte.to_N y)) as [Heq | Hlt | Hgt].
    + apply byte_to_N_inj in Heq as ->. rewrite IH.
      split; [intros -> | intros [= ->]]; reflexivity.
    + split; [discriminate | intros [= -> ->]; lia].
    + split; [discriminate | intros [= -> ->]; lia].
Qed.

Lemma bytesCompare_refl (a : bytes) : bytesCompare a a = Eq.
Proof. apply bytesCompare_eq. reflexivity. Qed.

Lemma dbGet_dbPut_eq (key val : bytes) (kvs : list (bytes * bytes)) :
  dbGet key (dbPut key val kvs) = Some val.
Proof.
  induction kvs as [| [k v] kvs IH]; cbn.
  - rewrite bytesCompare_refl. reflexivity.
  - destruct (bytesCompare key k) eqn:Hc; cbn; rewrite ?bytesCompare_refl, ?Hc;
      auto.
Qed.

Lemma dbGet_dbPut_ne (key key' val : bytes) (kvs : list (bytes * bytes)) :
  key' ≠ key → dbGet key' (dbPut key val kvs) = dbGet key' kvs.
Proof.
  intros Hne.
  assert (Hc' : bytesCompare key' key ≠ Eq) by (rewrite bytesCompare_eq; exact Hne).
  induction kvs as [| [k v] kvs IH]; cbn.
  - destruct (bytesCompare key' key); [contradiction | reflexivity..].
  - destruct (bytesCompare key k) eqn:Hc; cbn.
    + apply bytesCompare_eq in Hc as <-.
      destruct (bytesCompare key' key); [contradiction | reflexivity..].
    + destruct (bytesCompare key' key); [contradiction | reflexivity..].
    + rewrite IH. reflexivity.
Qed.

Lemma dbGet_dbDelete_eq (key : bytes) (kvs : list (bytes * bytes)) :
  dbGet key (dbDelete key kvs) = None.
Proof.
  induction kvs as [| [k v] kvs IH]; cbn; [reflexivity |].
  destruct (bytesCompare key k) eqn:Hc; cbn; rewrite ?Hc; exact IH.
Qed.

Lemma dbPut_elem (key val : bytes) (kvs : list (bytes * bytes)) :
  (key, val) ∈ dbPut key val kvs.
Proof.
  induction kvs as [| [k v] kvs IH]; cbn; [set_solver |].
  destruct (bytesCompare key k); set_solver.
Qed.

Lemma list_byte_of_string_inj (s1 s2 : string) :
  list_byte_of_string s1 = list_byte_of_string s2 → s1 = s2.
Proof.
  intros Heq. rewrite <- (string_of_list_byte_of_string s1),
    <- (string_of_list_byte_of_string s2), Heq. reflexivity.
Qed.

(** What is stored under a key with [Put] is what [Get] returns for that
    key and what a loop over a new iterator reads, under the same key
    string; other keys keep what they had; after [Delete] the key is not
    found. [Put] and [Delete] report no error. *)
Theorem Put_Get_Delete (key : string) (val : bytes) (k : levelDBKeyValueStore) :
  let k1 := (Put key val k).2 in
  (Put key val k).1 = None ∧
  Get key k1 = inr val ∧
  (∀ key', key' ≠ key → Get key' k1 = Get key' k) ∧
  (∀ fuel, (length (db k1) < fuel)%nat →
           (key, val) ∈ (drain fuel (NewIterator (db k1))).1) ∧
  (Delete key k1).1 = None ∧
  Get key (Delete key k1).2 = inl (ExtError "leveldb: not found").
Proof.
  intros k1. subst k1. unfold Put, Get, Delete. cbn [fst snd db].
  split; [reflexivity |]. split; [rewrite dbGet_dbPut_eq; reflexivity |].
  split.
  { intros key' Hne. rewrite dbGet_dbPut_ne; [reflexivity |].
    intros Heq. apply Hne, list_byte_of_string_inj, Heq. }
  split.
  { intros fuel Hfuel. unfold NewIterator. rewrite drain_from by lia.
    cbn [fst]. rewrite drop_0.
    apply list_elem_of_fmap. exists (list_byte_of_string key, val). split.
    - unfold asRead. cbn [fst snd]. rewrite string_of_list_byte_of_string.
      reflexivity.
    - apply dbPut_elem. }
  split; [reflexivity |]. rewrite dbGet_dbDelete_eq. reflexivity.
Qed.

(** Three pairs are read as "a", "b", "c"; released first, the iterator
    yields "b" and "c" only. *)
Lemma iteration_reads_every_pair_witness :
  (drain 4 (NewIterator samplePairs)).1 =
    [("a", [Byte.x01]); ("b", [Byte.x02]); ("c", [Byte.x03])] ∧
  (Next (drain 4 (NewIterator samplePairs)).2).1 = false.
Proof.
  apply (iteration_reads_every_pair samplePairs 4). cbn. lia.
Defined.

Lemma Release_before_loop_loses_a_pair_witness :
  (drain 4 (Release (NewIterator samplePairs))).1 =
    [("b", [Byte.x02]); ("c", [Byte.x03])] ∧
  Release (drain 4 (NewIterator samplePairs)).2 = (drain 4 (NewIterator samplePairs)).2.
Proof.
  apply (Release_before_loop_loses_a_pair samplePairs 4). cbn. lia.
Defined.

End KVStoreIteration.
